(** * Date-planner agent: Planner, Executor and Verifier

    A shallow embedding of the three agents of the date planner
    ([agents/planner_gemini.py], [agents/executor.py], [agents/verifier.py])
    together with the helpers and schemas they use ([utils/helpers.py],
    [utils/schemas.py]), and the properties of the pipeline proved on it.

    Conventions of the embedding.
    - A Python [float] is read as the rational it denotes and its arithmetic
      as exact arithmetic on [Q]; decimal literals such as [0.05] denote
      their decimal value.  NaN and the infinities are outside the model.
    - A Python [str] is a [string]; [lower] and [strip] act on the ASCII
      letters and the ASCII white space.
    - A value of type [Any] is a JSON-like tree ([pyval]); a [Dict[str, Any]]
      is an association list in insertion order.
    - A call that may raise returns an [outcome]; [Raise] carries [str(e)] of
      an exception caught by [except Exception].
    - Third-party behaviour (the provider services, the LLM call, pydantic
      validation, [int()], float formatting, the clock) is an interface: a
      type class whose methods the agents call.
    - Logging is not modelled, and neither are the schema fields defaulted to
      [datetime.now] ([timestamp], [created_at], [verified_at]). *)

From Stdlib Require Import ZArith QArith Qround Qabs Qminmax Lia Lqa Bool.
From Stdlib Require Import Ascii String DecimalString.
From Stdlib Require Import List.
Import ListNotations.

Local Open Scope string_scope.
Local Open Scope Z_scope.

(** ** Strings *)

Definition lower_ascii (c : ascii) : ascii :=
  let n := nat_of_ascii c in
  if andb (Nat.leb 65 n) (Nat.leb n 90) then ascii_of_nat (n + 32) else c.

(** [s.lower()] *)
Fixpoint lower (s : string) : string :=
  match s with
  | EmptyString => EmptyString
  | String c s' => String (lower_ascii c) (lower s')
  end.

(** [sub in s] *)
Fixpoint contains (sub s : string) : bool :=
  orb (String.prefix sub s)
      (match s with
       | EmptyString => false
       | String _ s' => contains sub s'
       end).

(** [s.split(sep)[0]] for a one-character separator: the text before the
    first occurrence of [sep], or all of [s] when there is none. *)
Fixpoint split_head (sep : ascii) (s : string) : string :=
  match s with
  | EmptyString => EmptyString
  | String c s' =>
      if Ascii.eqb c sep then EmptyString else String c (split_head sep s')
  end.

Definition is_space (c : ascii) : bool :=
  let n := nat_of_ascii c in
  orb (andb (Nat.leb 9 n) (Nat.leb n 13))
      (orb (andb (Nat.leb 28 n) (Nat.leb n 31)) (Nat.eqb n 32)).

Fixpoint lstrip (s : string) : string :=
  match s with
  | EmptyString => EmptyString
  | String c s' => if is_space c then lstrip s' else s
  end.

Fixpoint rstrip (s : string) : string :=
  match s with
  | EmptyString => EmptyString
  | String c s' =>
      match rstrip s' with
      | EmptyString => if is_space c then EmptyString else String c EmptyString
      | r => String c r
      end
  end.

(** [s.strip()] *)
Definition strip (s : string) : string := rstrip (lstrip s).

(** [str(n)] for a non-negative [int] such as [len(xs)]. *)
Definition str_nat (n : nat) : string :=
  NilEmpty.string_of_uint (Nat.to_uint n).

(** Truthiness of a [str]. *)
Definition str_truthy (s : string) : bool :=
  match s with EmptyString => false | _ => true end.

(** ** Dynamic values *)

#[local] Set Warnings "-register-all".

Inductive pyval : Type :=
| PNone
| PBool (b : bool)
| PInt (z : Z)
| PFloat (q : Q)
| PStr (s : string)
| PList (l : list pyval)
| PDict (d : list (string * pyval)).

Definition dict : Type := list (string * pyval).

(** [d.get(k)] as an option, and [d.get(k, default)]. *)
Fixpoint dict_lookup (k : string) (d : dict) : option pyval :=
  match d with
  | [] => None
  | (k', v) :: d' => if String.eqb k k' then Some v else dict_lookup k d'
  end.

Definition dict_get (k : string) (default : pyval) (d : dict) : pyval :=
  match dict_lookup k d with
  | Some v => v
  | None => default
  end.

(** ** Exceptions *)

Inductive outcome (A : Type) : Type :=
| Ret (a : A)
| Raise (msg : string).
Arguments Ret {A} a.
Arguments Raise {A} msg.

Definition bind {A B : Type} (m : outcome A) (k : A -> outcome B) : outcome B :=
  match m with
  | Ret a => k a
  | Raise msg => Raise msg
  end.

Notation "x <- m ;; k" := (bind m (fun x => k))
  (at level 61, m at next level, right associativity).

(** [for v in x]: the items a [for] loop visits, or [TypeError]. *)
Definition py_iter (x : pyval) : outcome (list pyval) :=
  match x with
  | PList l => Ret l
  | PDict d => Ret (map (fun kv => PStr (fst kv)) d)
  | PStr s => Ret (map (fun c => PStr (String c EmptyString)) (list_ascii_of_string s))
  | _ => Raise "object is not iterable"
  end.

(** ** Schemas ([utils/schemas.py])

    One module per pydantic model, so that the fields keep their names.
    [Literal] types with a fixed set of tags are enumerations; the action of
    a step stays a [string], because the executor also receives tags outside
    the [Literal] of [PlanStep]. *)

Inductive step_status : Type := success | failed | partial.
Inductive overall : Type := overall_success | overall_partial_success | overall_failed.
Inductive severity_t : Type := critical | warning | info.

Definition step_status_eqb (a b : step_status) : bool :=
  match a, b with
  | success, success | failed, failed | partial, partial => true
  | _, _ => false
  end.

Definition severity_eqb (a b : severity_t) : bool :=
  match a, b with
  | critical, critical | warning, warning | info, info => true
  | _, _ => false
  end.

(** The wire form of the enumerations. *)
Definition overall_str (o : overall) : string :=
  match o with
  | overall_success => "success"
  | overall_partial_success => "partial_success"
  | overall_failed => "failed"
  end.

Definition step_status_str (s : step_status) : string :=
  match s with
  | success => "success"
  | failed => "failed"
  | partial => "partial"
  end.

Module PlanStep.
Record t : Type := mk {
  id : string;
  action : string;
  params : dict;
  reasoning : option string
}.
End PlanStep.

Module PlannerOutput.
Record t : Type := mk {
  plan_id : string;
  user_intent : string;
  steps : list PlanStep.t;
  estimated_budget : option Q;
  safety_notes : list string
}.
End PlannerOutput.

Module VenueResult.
Record t : Type := mk {
  name : string;
  address : string;
  rating : option Q;
  price_level : option Z;
  open_now : option bool;
  opening_hours : option (list string);
  phone : option string;
  website : option string;
  google_maps_url : option string;
  photos : list string;
  cuisine_type : option string;
  wheelchair_accessible : option bool
}.
End VenueResult.

Module WeatherResult.
Record t : Type := mk {
  temperature : Q;
  feels_like : Q;
  condition : string;
  description : string;
  humidity : Z;
  wind_speed : Q;
  rain_probability : option Q;
  suggestion : string
}.
End WeatherResult.

Module EventResult.
Record t : Type := mk {
  name : string;
  description : option string;
  start_time : string;
  end_time : option string;
  venue : string;
  ticket_url : option string;
  price : option string;
  category : option string
}.
End EventResult.

Module ImageResult.
Record t : Type := mk {
  url : string;
  photographer : string;
  description : option string
}.
End ImageResult.

Module ExecutorStepResult.
Record t : Type := mk {
  step_id : string;
  action : string;
  status : step_status;
  payload : dict;
  source : string;
  error_message : option string
}.
End ExecutorStepResult.

Module ExecutorOutput.
Record t : Type := mk {
  plan_id : string;
  results : list ExecutorStepResult.t;
  overall_status : overall;
  execution_time_seconds : Q
}.
End ExecutorOutput.

Module ValidationIssue.
Record t : Type := mk {
  severity : severity_t;
  category : string;
  message : string;
  affected_step : option string;
  suggestion : option string
}.
End ValidationIssue.

Module SafetyCheck.
Record t : Type := mk {
  public_venue : bool;
  operating_hours_valid : bool;
  crowd_rating : option string;
  emergency_info : list string;
  safety_score : Z
}.
End SafetyCheck.

Module DatePlanTimeline.
Record t : Type := mk {
  time : string;
  activity : string;
  location : option string;
  duration_minutes : option Z;
  notes : option string
}.
End DatePlanTimeline.

Module FinalDatePlan.
Record t : Type := mk {
  title : string;
  summary : string;
  date_time : string;
  city : string;
  total_budget_estimate : string;
  venues : list VenueResult.t;
  weather_forecast : option WeatherResult.t;
  nearby_events : list EventResult.t;
  timeline : list DatePlanTimeline.t;
  safety_checklist : list string;
  transportation_suggestions : list string;
  backup_plan : option string;
  venue_images : list ImageResult.t
}.
End FinalDatePlan.

Module VerifierOutput.
Record t : Type := mk {
  plan_id : string;
  approved : bool;
  confidence_score : Q;
  issues : list ValidationIssue.t;
  safety_check : option SafetyCheck.t;
  final_output : option FinalDatePlan.t;
  retry_recommendations : list string
}.
End VerifierOutput.

(** The user request, [DatePlanRequest.model_dump()]: every key is present,
    an optional field that was not given holds [None]. *)
Module DatePlanRequest.
Record t : Type := mk {
  city : string;
  budget_per_person : option Q;
  date_time : string;
  preferences : option string;
  dietary_restrictions : option (list string);
  accessibility_needs : option string
}.
End DatePlanRequest.

(** The five tags of the [Literal] of [PlanStep.action]. *)
Definition action_enum : list string :=
  ["get_weather"; "search_venues"; "check_events"; "get_images"; "compose_final"].

(** ** Truthiness *)

Definition float_truthy (q : Q) : bool := negb (Qeq_bool q 0).
Definition int_truthy (z : Z) : bool := negb (Z.eqb z 0).
Definition opt_truthy {A : Type} (truthy : A -> bool) (o : option A) : bool :=
  match o with
  | None => false
  | Some a => truthy a
  end.
Definition list_truthy {A : Type} (l : list A) : bool :=
  match l with [] => false | _ => true end.

Definition Qltb (a b : Q) : bool := negb (Qle_bool b a).
Definition Qgtb (a b : Q) : bool := Qltb b a.

(** ** Interfaces to what lies outside the repository *)

(** Python built-ins whose result is text or may raise: [int(s)] (a
    [ValueError] is a [Raise]), [str(x)] of a float inside an f-string, and
    the format [f"{x:,.0f}"]. *)
Class Builtins : Type := {
  py_int : string -> outcome Z;
  str_float : Q -> string;
  format_thousands : Q -> string
}.

(** Pydantic validation, the construction of a model from the keys of a
    value: [None] when it raises. *)
Class Validation : Type := {
  parse_venue : pyval -> option VenueResult.t;
  parse_weather : dict -> option WeatherResult.t;
  parse_event : pyval -> option EventResult.t;
  parse_image : pyval -> option ImageResult.t
}.

(** The provider clients of the executor and the clock, acting on a state of
    the outside world.  A provider either returns or raises. *)
Class Services (World : Type) : Type := {
  time_time : World -> Q * World;
  round2 : Q -> Q;
  get_forecast : pyval -> pyval -> pyval -> World -> outcome (option WeatherResult.t) * World;
  search_venues :
    pyval -> pyval -> pyval -> pyval -> pyval -> pyval -> World ->
    outcome (list VenueResult.t) * World;
  search_images : pyval -> pyval -> World -> outcome (list ImageResult.t) * World
}.

(** ** Helpers ([utils/helpers.py]) *)

Definition calculate_price_bracket (budget_per_person : option Q) : Z :=
  if negb (opt_truthy float_truthy budget_per_person) then 2
  else match budget_per_person with
       | None => 2
       | Some b =>
           if Qltb b 500 then 1
           else if Qltb b 1500 then 2
           else if Qltb b 3000 then 3
           else 4
       end.

Module CityCoords.
Record t : Type := mk { lat : Q; lon : Q; country : string }.
End CityCoords.

Definition city_coords : list (string * CityCoords.t) :=
  [ ("mumbai", CityCoords.mk 19.0760 72.8777 "IN");
    ("delhi", CityCoords.mk 28.7041 77.1025 "IN");
    ("bangalore", CityCoords.mk 12.9716 77.5946 "IN");
    ("bengaluru", CityCoords.mk 12.9716 77.5946 "IN");
    ("pune", CityCoords.mk 18.5204 73.8567 "IN");
    ("hyderabad", CityCoords.mk 17.3850 78.4867 "IN");
    ("chennai", CityCoords.mk 13.0827 80.2707 "IN");
    ("kolkata", CityCoords.mk 22.5726 88.3639 "IN");
    ("ahmedabad", CityCoords.mk 23.0225 72.5714 "IN");
    ("jaipur", CityCoords.mk 26.9124 75.7873 "IN");
    ("goa", CityCoords.mk 15.2993 74.1240 "IN") ].

Fixpoint assoc_get {A : Type} (k : string) (default : A) (d : list (string * A)) : A :=
  match d with
  | [] => default
  | (k', v) :: d' => if String.eqb k k' then v else assoc_get k default d'
  end.

Definition extract_city_coordinates (city : string) : CityCoords.t :=
  let city_key := strip (lower city) in
  assoc_get city_key (CityCoords.mk 0.0 0.0 "UNKNOWN") city_coords.

Definition fixed_checklist : list string :=
  [ "Share live location with a trusted friend or family member";
    "Choose a public, well-lit venue";
    "Arrange your own transportation";
    "Keep emergency contacts handy";
    "Trust your instincts - leave if uncomfortable" ].

Definition late_night_items : list string :=
  [ "Inform someone about your expected return time";
    "Book a verified cab service for return journey" ].

(** The guard of the time-specific advice:
    ["night" in time.lower() or "pm" in time.lower()]. *)
Definition mentions_evening (time : string) : bool :=
  orb (contains "night" (lower time)) (contains "pm" (lower time)).

(** [int(time.split(":")[0]) if ":" in time else 0] *)
Definition checklist_hour `{Builtins} (time : string) : outcome Z :=
  if contains ":" time then py_int (split_head ":" time) else Ret 0.

Definition is_late_night (hour : Z) : bool :=
  orb (Z.leb 21 hour) (Z.leb hour 4).

Definition generate_safety_checklist `{Builtins}
    (venue_name : string) (time : string) : outcome (list string) :=
  let checklist := fixed_checklist in
  if mentions_evening time then
    hour <- checklist_hour time ;;
    if is_late_night hour then Ret (checklist ++ late_night_items)%list
    else Ret checklist
  else Ret checklist.

(** ** Planner ([agents/planner_gemini.py]) *)

(** The clock read by [generate_plan_id] and the [try] block of [plan]: the
    call of the model on the prompt, the removal of the code fence,
    [json.loads] and the construction of the [PlannerOutput].  The prompt is
    built before the block from the request, the coordinates and the price
    level (and the date parsed by [parse_date_time], a function of the
    request); on a request of the declared types that cannot raise.
    Whatever goes wrong inside the block is an exception, hence a [Raise]. *)
Class PlannerEnv (World : Type) : Type := {
  strftime_now : World -> string * World;
  llm_plan :
    string -> DatePlanRequest.t -> CityCoords.t -> Z -> World ->
    outcome PlannerOutput.t * World
}.

Definition generate_plan_id {World : Type} `{PlannerEnv World} (w : World)
    : string * World :=
  let (timestamp, w') := strftime_now w in
  ("plan_" ++ timestamp, w').

Definition fallback_safety_notes : list string :=
  [ "Choose a public, well-lit venue";
    "Share location with a trusted friend";
    "Arrange your own transportation" ].

Definition _create_fallback_plan (plan_id city : string) (lat lon : Q)
    (budget : option Q) (preferences : option string) : PlannerOutput.t :=
  let steps :=
    [ PlanStep.mk "step_1" "get_weather"
        [ ("latitude", PFloat lat); ("longitude", PFloat lon);
          ("target_datetime", PNone) ]
        (Some "Check weather conditions for the date");
      PlanStep.mk "step_2" "search_venues"
        [ ("query",
           PStr (match preferences with
                 | Some p => if str_truthy p then p ++ " restaurant" else "restaurant"
                 | None => "restaurant"
                 end));
          ("latitude", PFloat lat);
          ("longitude", PFloat lon);
          ("radius", PInt 3000);
          ("venue_type", PStr "restaurant");
          ("max_results", PInt 5) ]
        (Some "Find suitable dining venues");
      PlanStep.mk "step_3" "get_images"
        [ ("query", PStr "romantic restaurant dinner"); ("count", PInt 3) ]
        (Some "Get inspirational images");
      PlanStep.mk "step_4" "compose_final"
        [ ("include_timeline", PBool true); ("include_backup_plan", PBool true) ]
        (Some "Compose final date plan") ] in
  PlannerOutput.mk plan_id ("Plan a date in " ++ city) steps budget
    fallback_safety_notes.

Definition plan {World : Type} `{PlannerEnv World}
    (user_request : DatePlanRequest.t) (w : World) : PlannerOutput.t * World :=
  let (plan_id, w1) := generate_plan_id w in
  let city := DatePlanRequest.city user_request in
  let budget := DatePlanRequest.budget_per_person user_request in
  let preferences := DatePlanRequest.preferences user_request in
  let city_coords := extract_city_coordinates city in
  let lat := CityCoords.lat city_coords in
  let lon := CityCoords.lon city_coords in
  let price_level := calculate_price_bracket budget in
  match llm_plan plan_id user_request city_coords price_level w1 with
  | (Ret planner_output, w2) => (planner_output, w2)
  | (Raise _, w2) =>
      (_create_fallback_plan plan_id city lat lon budget preferences, w2)
  end.

(** ** Executor ([agents/executor.py]) *)

Definition dump_opt {A : Type} (f : A -> pyval) (o : option A) : pyval :=
  match o with
  | None => PNone
  | Some a => f a
  end.

Definition dump_strings (l : list string) : pyval := PList (map PStr l).

(** [model_dump()] of the three provider results. *)
Definition weather_model_dump (r : WeatherResult.t) : dict :=
  [ ("temperature", PFloat (WeatherResult.temperature r));
    ("feels_like", PFloat (WeatherResult.feels_like r));
    ("condition", PStr (WeatherResult.condition r));
    ("description", PStr (WeatherResult.description r));
    ("humidity", PInt (WeatherResult.humidity r));
    ("wind_speed", PFloat (WeatherResult.wind_speed r));
    ("rain_probability", dump_opt PFloat (WeatherResult.rain_probability r));
    ("suggestion", PStr (WeatherResult.suggestion r)) ].

Definition venue_model_dump (v : VenueResult.t) : pyval :=
  PDict
    [ ("name", PStr (VenueResult.name v));
      ("address", PStr (VenueResult.address v));
      ("rating", dump_opt PFloat (VenueResult.rating v));
      ("price_level", dump_opt PInt (VenueResult.price_level v));
      ("open_now", dump_opt PBool (VenueResult.open_now v));
      ("opening_hours", dump_opt dump_strings (VenueResult.opening_hours v));
      ("phone", dump_opt PStr (VenueResult.phone v));
      ("website", dump_opt PStr (VenueResult.website v));
      ("google_maps_url", dump_opt PStr (VenueResult.google_maps_url v));
      ("photos", dump_strings (VenueResult.photos v));
      ("cuisine_type", dump_opt PStr (VenueResult.cuisine_type v));
      ("wheelchair_accessible", dump_opt PBool (VenueResult.wheelchair_accessible v)) ].

Definition image_model_dump (i : ImageResult.t) : pyval :=
  PDict
    [ ("url", PStr (ImageResult.url i));
      ("photographer", PStr (ImageResult.photographer i));
      ("description", dump_opt PStr (ImageResult.description i)) ].

Section Executor.
Context {World : Type} `{Services World}.

(** A handler returns a step result or lets an exception of its provider
    through; either way the world has moved on. *)
Definition handler : Type :=
  PlanStep.t -> World -> outcome ExecutorStepResult.t * World.

Definition _get_weather : handler := fun step w =>
  let params := PlanStep.params step in
  let latitude := dict_get "latitude" (PInt 0) params in
  let longitude := dict_get "longitude" (PInt 0) params in
  let target_datetime := dict_get "target_datetime" PNone params in
  match get_forecast latitude longitude target_datetime w with
  | (Raise e, w') => (Raise e, w')
  | (Ret (Some weather_result), w') =>
      (Ret (ExecutorStepResult.mk (PlanStep.id step) (PlanStep.action step)
              success (weather_model_dump weather_result) "openweather" None),
       w')
  | (Ret None, w') =>
      (Ret (ExecutorStepResult.mk (PlanStep.id step) (PlanStep.action step)
              failed [] "openweather" (Some "Failed to fetch weather data")),
       w')
  end.

Definition _search_venues : handler := fun step w =>
  let params := PlanStep.params step in
  let query := dict_get "query" (PStr "restaurant") params in
  let latitude := dict_get "latitude" (PInt 0) params in
  let longitude := dict_get "longitude" (PInt 0) params in
  let radius := dict_get "radius" (PInt 3000) params in
  let venue_type := dict_get "venue_type" (PStr "restaurant") params in
  let max_results := dict_get "max_results" (PInt 5) params in
  match search_venues query latitude longitude radius venue_type max_results w with
  | (Raise e, w') => (Raise e, w')
  | (Ret venues, w') =>
      if list_truthy venues then
        (Ret (ExecutorStepResult.mk (PlanStep.id step) (PlanStep.action step)
                success [("venues", PList (map venue_model_dump venues))]
                "google_places" None),
         w')
      else
        (Ret (ExecutorStepResult.mk (PlanStep.id step) (PlanStep.action step)
                partial [("venues", PList [])] "google_places"
                (Some "No venues found matching criteria")),
         w')
  end.

Definition _check_events : handler := fun step w =>
  (Ret (ExecutorStepResult.mk (PlanStep.id step) (PlanStep.action step)
          success [("events", PList [])] "events_placeholder"
          (Some "Events API not integrated (placeholder)")),
   w).

Definition _get_images : handler := fun step w =>
  let params := PlanStep.params step in
  let query := dict_get "query" (PStr "romantic date") params in
  let count := dict_get "count" (PInt 3) params in
  match search_images query count w with
  | (Raise e, w') => (Raise e, w')
  | (Ret images, w') =>
      if list_truthy images then
        (Ret (ExecutorStepResult.mk (PlanStep.id step) (PlanStep.action step)
                success [("images", PList (map image_model_dump images))]
                "unsplash" None),
         w')
      else
        (Ret (ExecutorStepResult.mk (PlanStep.id step) (PlanStep.action step)
                partial [("images", PList [])] "unsplash"
                (Some "No images found")),
         w')
  end.

Definition _compose_final : handler := fun step w =>
  (Ret (ExecutorStepResult.mk (PlanStep.id step) (PlanStep.action step)
          success [("ready_for_composition", PBool true)] "executor" None),
   w).

(** The [if]/[elif] chain inside the [try] of [_execute_step]. *)
Definition dispatch : handler := fun step w =>
  let action := PlanStep.action step in
  if String.eqb action "get_weather" then _get_weather step w
  else if String.eqb action "search_venues" then _search_venues step w
  else if String.eqb action "check_events" then _check_events step w
  else if String.eqb action "get_images" then _get_images step w
  else if String.eqb action "compose_final" then _compose_final step w
  else
    (Ret (ExecutorStepResult.mk (PlanStep.id step) action failed []
            "executor" (Some ("Unknown action: " ++ action))),
     w).

(** [except Exception as e] turns whatever the handler raised into a
    failed result carrying [str(e)]. *)
Definition _execute_step (step : PlanStep.t) (w : World)
    : ExecutorStepResult.t * World :=
  match dispatch step w with
  | (Ret result, w') => (result, w')
  | (Raise e, w') =>
      (ExecutorStepResult.mk (PlanStep.id step) (PlanStep.action step)
         failed [] "executor" (Some e),
       w')
  end.

(** The loop over [steps_to_execute], appending to [results]. *)
Fixpoint run_steps (steps : list PlanStep.t) (w : World)
    : list ExecutorStepResult.t * World :=
  match steps with
  | [] => ([], w)
  | step :: rest =>
      let (result, w1) := _execute_step step w in
      let (results, w2) := run_steps rest w1 in
      (result :: results, w2)
  end.

Definition is_success (r : ExecutorStepResult.t) : bool :=
  step_status_eqb (ExecutorStepResult.status r) success.

(** [sum(1 for r in results if r.status == "success")] *)
Definition success_count (results : list ExecutorStepResult.t) : nat :=
  List.length (filter is_success results).

Definition determine_overall_status (results : list ExecutorStepResult.t)
    : overall :=
  if Nat.eqb (success_count results) (List.length results) then overall_success
  else if Nat.ltb 0 (success_count results) then overall_partial_success
  else overall_failed.

(** [s.id in retry_steps] *)
Definition id_in (retry_steps : list string) (s : PlanStep.t) : bool :=
  existsb (String.eqb (PlanStep.id s)) retry_steps.

(** The steps selected for execution; [if retry_steps:] is false for
    [None] and for the empty list. *)
Definition steps_to_execute (plan : PlannerOutput.t)
    (retry_steps : option (list string)) : list PlanStep.t :=
  if opt_truthy list_truthy retry_steps then
    match retry_steps with
    | Some ids => filter (id_in ids) (PlannerOutput.steps plan)
    | None => PlannerOutput.steps plan
    end
  else PlannerOutput.steps plan.

Definition execute (plan : PlannerOutput.t)
    (retry_steps : option (list string)) (w : World)
    : ExecutorOutput.t * World :=
  let (start_time, w1) := time_time w in
  let (results, w2) := run_steps (steps_to_execute plan retry_steps) w1 in
  let overall_status := determine_overall_status results in
  let (end_time, w3) := time_time w2 in
  let execution_time := (end_time - start_time)%Q in
  (ExecutorOutput.mk (PlannerOutput.plan_id plan) results overall_status
     (round2 execution_time),
   w3).
End Executor.

(** ** Verifier ([agents/verifier.py]) *)

(** [max(a, b)] and [min(a, b)] as Python computes them: the first argument
    unless the second is strictly larger (smaller). *)
Definition py_max (a b : Q) : Q := if Qgtb b a then b else a.
Definition py_min (a b : Q) : Q := if Qltb b a then b else a.

(** The items of a list that a parser accepts, in order: the [try]/[except]
    around each [append]. *)
Fixpoint parse_all {A : Type} (parse : pyval -> option A) (items : list pyval)
    : list A :=
  match items with
  | [] => []
  | v :: rest =>
      match parse v with
      | Some a => a :: parse_all parse rest
      | None => parse_all parse rest
      end
  end.

(** The loop shared by [_extract_venues], [_extract_events] and
    [_extract_images]: over the successful results of one action, the
    parsed items of [payload.get(key, [])]. *)
Fixpoint extract_items {A : Type} (action key : string)
    (parse : pyval -> option A) (results : list ExecutorStepResult.t)
    : outcome (list A) :=
  match results with
  | [] => Ret []
  | result :: rest =>
      if andb (String.eqb (ExecutorStepResult.action result) action)
              (step_status_eqb (ExecutorStepResult.status result) success)
      then
        items <- py_iter (dict_get key (PList []) (ExecutorStepResult.payload result)) ;;
        more <- extract_items action key parse rest ;;
        Ret (parse_all parse items ++ more)%list
      else extract_items action key parse rest
  end.

Definition mk_issue (sev : severity_t) (category message suggestion : string)
    : ValidationIssue.t :=
  ValidationIssue.mk sev category message None (Some suggestion).

Definition is_critical (i : ValidationIssue.t) : bool :=
  severity_eqb (ValidationIssue.severity i) critical.

Definition fixed_timeline (venue_name : string) : list DatePlanTimeline.t :=
  [ DatePlanTimeline.mk "6:30 PM" "Meet at venue" (Some venue_name) (Some 15)
      (Some "Arrive a bit early to get a good table");
    DatePlanTimeline.mk "6:45 PM" "Order drinks/appetizers" (Some venue_name) (Some 30)
      (Some "Start with light conversation");
    DatePlanTimeline.mk "7:15 PM" "Main course" (Some venue_name) (Some 60)
      (Some "Enjoy your meal together");
    DatePlanTimeline.mk "8:30 PM" "Dessert/wrap up" (Some venue_name) (Some 30)
      (Some "Optional: Explore nearby for a walk");
    DatePlanTimeline.mk "9:00 PM" "Head home" (Some "Safe return journey") None
      (Some "Share your ride details with someone") ].

Section Verifier.
Context `{Builtins} `{Validation}.

Definition _extract_venues (executor_output : ExecutorOutput.t)
    : outcome (list VenueResult.t) :=
  extract_items "search_venues" "venues" parse_venue
    (ExecutorOutput.results executor_output).

Fixpoint first_weather (results : list ExecutorStepResult.t)
    : option WeatherResult.t :=
  match results with
  | [] => None
  | result :: rest =>
      if andb (String.eqb (ExecutorStepResult.action result) "get_weather")
              (step_status_eqb (ExecutorStepResult.status result) success)
      then match parse_weather (ExecutorStepResult.payload result) with
           | Some weather => Some weather
           | None => first_weather rest
           end
      else first_weather rest
  end.

Definition _extract_weather (executor_output : ExecutorOutput.t)
    : option WeatherResult.t :=
  first_weather (ExecutorOutput.results executor_output).

Definition _extract_events (executor_output : ExecutorOutput.t)
    : outcome (list EventResult.t) :=
  extract_items "check_events" "events" parse_event
    (ExecutorOutput.results executor_output).

Definition _extract_images (executor_output : ExecutorOutput.t)
    : outcome (list ImageResult.t) :=
  extract_items "get_images" "images" parse_image
    (ExecutorOutput.results executor_output).

(** [v.rating and v.rating > 0] *)
Definition is_rated (v : VenueResult.t) : bool :=
  opt_truthy (fun r => andb (float_truthy r) (Qgtb r 0)) (VenueResult.rating v).

(** [v.wheelchair_accessible is True] *)
Definition is_accessible (v : VenueResult.t) : bool :=
  match VenueResult.wheelchair_accessible v with
  | Some true => true
  | _ => false
  end.

Definition _validate_venues (venues : list VenueResult.t)
    (user_request : DatePlanRequest.t) : list ValidationIssue.t :=
  let n := List.length venues in
  let issues1 :=
    if Nat.eqb n 0 then
      [ mk_issue critical "venues" "No venues found matching criteria"
          "Try broadening search criteria or increasing search radius" ]
    else if Nat.ltb n 3 then
      [ mk_issue warning "venues"
          ("Only " ++ str_nat n ++ " venues found - limited options")
          "Consider alternative cuisines or venue types" ]
    else [] in
  let rated_venues := filter is_rated venues in
  let issues2 :=
    if Qltb (inject_Z (Z.of_nat (List.length rated_venues)))
            (inject_Z (Z.of_nat n) * 0.5)
    then
      [ mk_issue info "venues" "Some venues missing rating information"
          "Verify venue quality through other sources" ]
    else [] in
  let accessibility_needs := DatePlanRequest.accessibility_needs user_request in
  let issues3 :=
    if opt_truthy str_truthy accessibility_needs then
      let accessible_venues := filter is_accessible venues in
      if Nat.eqb (List.length accessible_venues) 0 then
        [ mk_issue warning "accessibility"
            "No confirmed wheelchair-accessible venues found"
            "Call venues directly to confirm accessibility" ]
      else []
    else [] in
  (issues1 ++ issues2 ++ issues3)%list.

Definition _validate_weather (weather : option WeatherResult.t)
    : list ValidationIssue.t :=
  match weather with
  | None =>
      [ mk_issue warning "weather" "Weather data unavailable"
          "Check weather manually before the date" ]
  | Some weather =>
      let rain :=
        match WeatherResult.rain_probability weather with
        | Some p =>
            if andb (float_truthy p) (Qgtb p 70) then
              [ mk_issue warning "weather"
                  ("High chance of rain (" ++ str_float p ++ "%)")
                  "Choose indoor venues or carry umbrellas" ]
            else []
        | None => []
        end in
      let temp :=
        if Qgtb (WeatherResult.temperature weather) 35 then
          [ mk_issue info "weather" "Very hot weather expected"
              "Choose air-conditioned venues and stay hydrated" ]
        else if Qltb (WeatherResult.temperature weather) 10 then
          [ mk_issue info "weather" "Cold weather expected"
              "Dress warmly and consider indoor venues" ]
        else [] in
      (rain ++ temp)%list
  end.

(** One turn of the loop of [_validate_budget]. *)
Definition over_budget (budget : Q) (venue : VenueResult.t) : bool :=
  match VenueResult.price_level venue with
  | Some price_level =>
      if andb (int_truthy price_level) (Z.ltb 0 price_level) then
        let estimated_cost := price_level * 750 in
        Qgtb (inject_Z estimated_cost) budget
      else false
  | None => false
  end.

Definition _validate_budget (venues : list VenueResult.t) (budget : option Q)
    : list ValidationIssue.t :=
  match budget with
  | None => []
  | Some b =>
      if negb (float_truthy b) then []
      else
        let over_budget_count := List.length (filter (over_budget b) venues) in
        if Nat.eqb over_budget_count (List.length venues) then
          [ mk_issue warning "budget" "All suggested venues may exceed budget"
              "Consider lower-priced alternatives or adjust budget" ]
        else if Nat.ltb 0 over_budget_count then
          [ mk_issue info "budget"
              (str_nat over_budget_count ++ " venues may be above budget")
              "Review menu prices before booking" ]
        else []
  end.

(** [venue.open_now is False] *)
Definition closed_now (v : VenueResult.t) : bool :=
  match VenueResult.open_now v with
  | Some false => true
  | _ => false
  end.

Definition _perform_safety_check (venues : list VenueResult.t)
    (user_request : DatePlanRequest.t) : SafetyCheck.t :=
  let public_venue := Nat.ltb 0 (List.length venues) in
  let operating_hours_valid := negb (existsb closed_now venues) in
  let city := DatePlanRequest.city user_request in
  let emergency_info :=
    [ "Emergency: 112 (India)";
      "Local police: Search '" ++ city ++ " police station'";
      "Women's helpline: 1091";
      "Ambulance: 108" ] in
  let score0 := 8 in
  let score1 := if negb operating_hours_valid then score0 - 1 else score0 in
  let score2 := if Nat.eqb (List.length venues) 0 then score1 - 2 else score1 in
  SafetyCheck.mk public_venue operating_hours_valid (Some "Moderate")
    emergency_info (Z.max 0 score2).

(** The deduction of one turn of the loop over the issues. *)
Definition issue_deduction (issue : ValidationIssue.t) : Q :=
  match ValidationIssue.severity issue with
  | critical => 0.3
  | warning => 0.1
  | _ => 0.05
  end.

(** The local [score] of [_calculate_confidence] when the loop is over,
    before the clamp. *)
Definition confidence_before_clamp (venues : list VenueResult.t)
    (weather : option WeatherResult.t) (issues : list ValidationIssue.t) : Q :=
  let score := 1.0%Q in
  let score :=
    if Nat.eqb (List.length venues) 0 then (score - 0.5)%Q
    else if Nat.ltb (List.length venues) 3 then (score - 0.2)%Q
    else score in
  let score :=
    match weather with
    | None => (score - 0.1)%Q
    | Some _ => score
    end in
  fold_left (fun score issue => (score - issue_deduction issue)%Q) issues score.

Definition _calculate_confidence (venues : list VenueResult.t)
    (weather : option WeatherResult.t) (issues : list ValidationIssue.t) : Q :=
  py_max 0.0 (py_min 1.0 (confidence_before_clamp venues weather issues)).

Fixpoint _generate_retry_recommendations (issues : list ValidationIssue.t)
    (executor_output : ExecutorOutput.t) : list string :=
  match issues with
  | [] => []
  | issue :: rest =>
      let more := _generate_retry_recommendations rest executor_output in
      if severity_eqb (ValidationIssue.severity issue) critical then
        if String.eqb (ValidationIssue.category issue) "venues" then
          "Retry venue search with broader criteria"
            :: "Increase search radius to 5000m" :: more
        else more
      else more
  end.

Definition _generate_timeline (date_time : string)
    (venues : list VenueResult.t) : list DatePlanTimeline.t :=
  match venues with
  | [] => []
  | v0 :: _ => fixed_timeline (VenueResult.name v0)
  end.

Definition transportation : list string :=
  [ "Book a cab through Uber/Ola for convenience";
    "Share ride details with a friend";
    "Metro is a safe and affordable option for major cities";
    "Arrive 10-15 minutes early" ].

Definition _compose_final_plan (plan : PlannerOutput.t)
    (user_request : DatePlanRequest.t) (venues : list VenueResult.t)
    (weather : option WeatherResult.t) (events : list EventResult.t)
    (images : list ImageResult.t) (safety_check : SafetyCheck.t)
    : outcome FinalDatePlan.t :=
  let city := DatePlanRequest.city user_request in
  let date_time := DatePlanRequest.date_time user_request in
  let budget := DatePlanRequest.budget_per_person user_request in
  let title := "Date Night in " ++ city in
  let summary :=
    PlannerOutput.user_intent plan ++ ". We've found "
      ++ str_nat (List.length venues) ++ " great venue options for you!" in
  let timeline := _generate_timeline date_time venues in
  safety_checklist <-
    generate_safety_checklist
      (match venues with v0 :: _ => VenueResult.name v0 | [] => "" end)
      date_time ;;
  let backup_plan :=
    match weather with
    | Some w =>
        match WeatherResult.rain_probability w with
        | Some p =>
            if andb (float_truthy p) (Qgtb p 50) then
              Some "If it rains heavily, consider rescheduling or choosing a fully indoor venue with covered parking."
            else None
        | None => None
        end
    | None => None
    end in
  Ret (FinalDatePlan.mk title summary date_time city
         (match budget with
          | Some b =>
              if float_truthy b then "₹" ++ format_thousands (b * 2)
              else "Flexible"
          | None => "Flexible"
          end)
         (firstn 5 venues) weather events timeline safety_checklist
         transportation backup_plan images).

(** The three [issues.extend(...)] of [verify]. *)
Definition validation_issues (venues : list VenueResult.t)
    (weather : option WeatherResult.t) (user_request : DatePlanRequest.t)
    : list ValidationIssue.t :=
  (_validate_venues venues user_request
     ++ _validate_weather weather
     ++ _validate_budget venues
          (DatePlanRequest.budget_per_person user_request))%list.

Definition verify (plan : PlannerOutput.t) (executor_output : ExecutorOutput.t)
    (user_request : DatePlanRequest.t) : outcome VerifierOutput.t :=
  venues <- _extract_venues executor_output ;;
  let weather := _extract_weather executor_output in
  events <- _extract_events executor_output ;;
  images <- _extract_images executor_output ;;
  let issues := validation_issues venues weather user_request in
  let safety_check := _perform_safety_check venues user_request in
  let critical_issues := filter is_critical issues in
  let approved :=
    andb (Nat.eqb (List.length critical_issues) 0)
         (Nat.ltb 0 (List.length venues)) in
  let confidence_score := _calculate_confidence venues weather issues in
  if approved then
    final_plan <-
      _compose_final_plan plan user_request venues weather events images
        safety_check ;;
    Ret (VerifierOutput.mk (PlannerOutput.plan_id plan) approved
           confidence_score issues (Some safety_check) (Some final_plan) [])
  else
    let retry_recommendations :=
      _generate_retry_recommendations issues executor_output in
    Ret (VerifierOutput.mk (PlannerOutput.plan_id plan) approved
           confidence_score issues (Some safety_check) None
           retry_recommendations).
End Verifier.

(** ** A sample runtime

    Concrete instances of the interfaces, on which the agents can be
    evaluated: decimal [int()] on ASCII text, validation that reads back what
    [model_dump] wrote, providers that answer from fixed data, a planner whose
    model call fails.  The world is a counter that the clock advances. *)

Definition is_digit (c : ascii) : bool :=
  let n := nat_of_ascii c in andb (Nat.leb 48 n) (Nat.leb n 57).

(** The digits of an integer literal; one underscore is allowed between two
    digits. *)
Fixpoint digits_value (acc : Z) (after_digit : bool) (s : string) : option Z :=
  match s with
  | EmptyString => if after_digit then Some acc else None
  | String c s' =>
      if is_digit c then
        digits_value (10 * acc + Z.of_nat (nat_of_ascii c - 48)) true s'
      else if andb (Ascii.eqb c "_") after_digit then digits_value acc false s'
      else None
  end.

Definition sample_int (s : string) : outcome Z :=
  let body := strip s in
  let parsed :=
    match body with
    | String "-" ds => option_map Z.opp (digits_value 0 false ds)
    | String "+" ds => digits_value 0 false ds
    | _ => digits_value 0 false body
    end in
  match parsed with
  | Some z => Ret z
  | None => Raise ("invalid literal for int() with base 10: '" ++ s ++ "'")
  end.

Definition str_Z (z : Z) : string :=
  NilZero.string_of_int (Z.to_int z).

(** A float with at most one decimal place, the way [str] prints it. *)
Definition sample_str_float (q : Q) : string :=
  let tenths := Qfloor (Qabs q * 10) in
  (if Qltb q 0 then "-" else "")
    ++ str_Z (tenths / 10) ++ "." ++ str_Z (tenths mod 10).

Fixpoint group_thousands (fuel : nat) (z : Z) : string :=
  match fuel with
  | O => str_Z z
  | S fuel' =>
      if Z.ltb z 1000 then str_Z z
      else
        let r := z mod 1000 in
        group_thousands fuel' (z / 1000) ++ ","
          ++ (if Z.ltb r 10 then "00" else if Z.ltb r 100 then "0" else "")
          ++ str_Z r
  end.

(** [f"{x:,.0f}"] of a non-negative amount: rounded half to even, digits
    grouped by three. *)
Definition sample_format_thousands (q : Q) : string :=
  let fl := Qfloor q in
  let frac := (q - inject_Z fl)%Q in
  let rounded :=
    if Qltb frac 0.5 then fl
    else if Qltb 0.5 frac then fl + 1
    else if Z.even fl then fl else fl + 1 in
  group_thousands 32 rounded.

Definition sample_builtins : Builtins :=
  {| py_int := sample_int;
     str_float := sample_str_float;
     format_thousands := sample_format_thousands |}.

Definition get_str (k : string) (d : dict) : option string :=
  match dict_lookup k d with
  | Some (PStr s) => Some s
  | _ => None
  end.

Definition get_float (k : string) (d : dict) : option Q :=
  match dict_lookup k d with
  | Some (PFloat q) => Some q
  | Some (PInt z) => Some (inject_Z z)
  | _ => None
  end.

Definition get_int (k : string) (d : dict) : option Z :=
  match dict_lookup k d with
  | Some (PInt z) => Some z
  | _ => None
  end.

(** An optional field: absent or [None] is [Some None]; a value of the wrong
    type is a validation error. *)
Definition get_optional {A : Type} (read : pyval -> option A) (k : string)
    (d : dict) : option (option A) :=
  match dict_lookup k d with
  | None | Some PNone => Some None
  | Some v => option_map Some (read v)
  end.

Definition read_str (v : pyval) : option string :=
  match v with PStr s => Some s | _ => None end.
Definition read_float (v : pyval) : option Q :=
  match v with PFloat q => Some q | PInt z => Some (inject_Z z) | _ => None end.
Definition read_int (v : pyval) : option Z :=
  match v with PInt z => Some z | _ => None end.
Definition read_bool (v : pyval) : option bool :=
  match v with PBool b => Some b | _ => None end.

Fixpoint read_all {A : Type} (read : pyval -> option A) (l : list pyval)
    : option (list A) :=
  match l with
  | [] => Some []
  | v :: rest =>
      match read v, read_all read rest with
      | Some a, Some more => Some (a :: more)
      | _, _ => None
      end
  end.

Definition read_strings (v : pyval) : option (list string) :=
  match v with PList l => read_all read_str l | _ => None end.

Definition obind {A B : Type} (o : option A) (k : A -> option B) : option B :=
  match o with Some a => k a | None => None end.

Notation "x <-? o ;; k" := (obind o (fun x => k))
  (at level 61, o at next level, right associativity).

Definition sample_parse_venue (v : pyval) : option VenueResult.t :=
  match v with
  | PDict d =>
      name <-? get_str "name" d ;;
      address <-? get_str "address" d ;;
      rating <-? get_optional read_float "rating" d ;;
      price_level <-? get_optional read_int "price_level" d ;;
      open_now <-? get_optional read_bool "open_now" d ;;
      opening_hours <-? get_optional read_strings "opening_hours" d ;;
      phone <-? get_optional read_str "phone" d ;;
      website <-? get_optional read_str "website" d ;;
      google_maps_url <-? get_optional read_str "google_maps_url" d ;;
      photos <-? match dict_lookup "photos" d with
                 | None => Some []
                 | Some p => read_strings p
                 end ;;
      cuisine_type <-? get_optional read_str "cuisine_type" d ;;
      wheelchair_accessible <-? get_optional read_bool "wheelchair_accessible" d ;;
      Some (VenueResult.mk name address rating price_level open_now
              opening_hours phone website google_maps_url photos cuisine_type
              wheelchair_accessible)
  | _ => None
  end.

Definition sample_parse_weather (d : dict) : option WeatherResult.t :=
  temperature <-? get_float "temperature" d ;;
  feels_like <-? get_float "feels_like" d ;;
  condition <-? get_str "condition" d ;;
  description <-? get_str "description" d ;;
  humidity <-? get_int "humidity" d ;;
  wind_speed <-? get_float "wind_speed" d ;;
  rain_probability <-? get_optional read_float "rain_probability" d ;;
  suggestion <-? get_str "suggestion" d ;;
  Some (WeatherResult.mk temperature feels_like condition description humidity
          wind_speed rain_probability suggestion).

Definition sample_parse_event (v : pyval) : option EventResult.t :=
  match v with
  | PDict d =>
      name <-? get_str "name" d ;;
      description <-? get_optional read_str "description" d ;;
      start_time <-? get_str "start_time" d ;;
      end_time <-? get_optional read_str "end_time" d ;;
      venue <-? get_str "venue" d ;;
      ticket_url <-? get_optional read_str "ticket_url" d ;;
      price <-? get_optional read_str "price" d ;;
      category <-? get_optional read_str "category" d ;;
      Some (EventResult.mk name description start_time end_time venue
              ticket_url price category)
  | _ => None
  end.

Definition sample_parse_image (v : pyval) : option ImageResult.t :=
  match v with
  | PDict d =>
      url <-? get_str "url" d ;;
      photographer <-? get_str "photographer" d ;;
      description <-? get_optional read_str "description" d ;;
      Some (ImageResult.mk url photographer description)
  | _ => None
  end.

Definition sample_validation : Validation :=
  {| parse_venue := sample_parse_venue;
     parse_weather := sample_parse_weather;
     parse_event := sample_parse_event;
     parse_image := sample_parse_image |}.

(** Data after the fixtures of the repository's tests ([tests/test_flow.py]). *)
Definition sample_venues : list VenueResult.t :=
  [ VenueResult.mk "Test Restaurant 1" "123 Test Street, Mumbai" (Some 4.5%Q)
      (Some 2) (Some true)
      (Some ["Monday: 11:00 AM - 11:00 PM"; "Tuesday: 11:00 AM - 11:00 PM"])
      (Some "+91-1234567890") (Some "https://test-restaurant.com")
      (Some "https://maps.google.com/test") ["https://example.com/photo1.jpg"]
      (Some "Indian") (Some true);
    VenueResult.mk "Test Restaurant 2" "456 Test Avenue, Mumbai" (Some 4.2%Q)
      (Some 2) (Some true) None None None
      (Some "https://maps.google.com/test2") [] (Some "Continental")
      (Some false) ].

Definition sample_weather : WeatherResult.t :=
  WeatherResult.mk 28.5 30.0 "Clear" "Clear sky" 65 3.5 (Some 10.0%Q)
    "Perfect weather for outdoor dining".

Definition sample_user_request : DatePlanRequest.t :=
  DatePlanRequest.mk "Mumbai" (Some 1500%Q) "Saturday 7pm"
    (Some "vegetarian, romantic") (Some ["vegetarian"]) None.

(** Providers that always answer: a forecast, two venues, no image. *)
Definition sample_services : Services nat :=
  {| time_time := fun w => (inject_Z (Z.of_nat w), S w);
     round2 := fun q => (inject_Z (Qfloor (q * 100 + 0.5)) / 100)%Q;
     get_forecast := fun _ _ _ w => (Ret (Some sample_weather), w);
     search_venues := fun _ _ _ _ _ _ w => (Ret sample_venues, w);
     search_images := fun _ _ w => (Ret [], w) |}.

(** A planner whose model call raises. *)
Definition sample_planner_env : PlannerEnv nat :=
  {| strftime_now := fun w => ("20240210_190000", S w);
     llm_plan := fun _ _ _ _ w => (Raise "API Error", w) |}.

Definition empty_plan : PlannerOutput.t :=
  PlannerOutput.mk "test_plan_empty" "Test empty plan" [] (Some 1500%Q) [].

(** The executor output of [test_verifier_approves_valid_plan]. *)
Definition sample_executor_output : ExecutorOutput.t :=
  ExecutorOutput.mk "test_plan_789"
    [ ExecutorStepResult.mk "step_1" "get_weather" success
        (weather_model_dump sample_weather) "openweather" None;
      ExecutorStepResult.mk "step_2" "search_venues" success
        [("venues", PList (map venue_model_dump sample_venues))]
        "google_places" None ]
    overall_success 2.5.

(** The executor output of [test_verifier_rejects_plan_without_venues]. *)
Definition empty_executor_output : ExecutorOutput.t :=
  ExecutorOutput.mk "test_plan_empty"
    [ ExecutorStepResult.mk "step_1" "search_venues" partial
        [("venues", PList [])] "google_places" None ]
    overall_partial_success 1.0.

(** ** Definitions used to state the properties *)

Definition no_venues_issue : ValidationIssue.t :=
  mk_issue critical "venues" "No venues found matching criteria"
    "Try broadening search criteria or increasing search radius".

Definition budget_warning_issue : ValidationIssue.t :=
  mk_issue warning "budget" "All suggested venues may exceed budget"
    "Consider lower-priced alternatives or adjust budget".

Definition retry_strings : list string :=
  [ "Retry venue search with broader criteria";
    "Increase search radius to 5000m" ].


(** The deductions of the confidence score as the specification lists them,
    from the number of venues, whether the weather is missing, and the number
    of issues of each severity. *)
Definition spec_deductions (n_venues : nat) (weather_missing : bool)
    (n_critical n_warning n_info : nat) : Q :=
  ((if Nat.eqb n_venues 0 then 0.5 else if Nat.ltb n_venues 3 then 0.2 else 0)
   + (if weather_missing then 0.1 else 0)
   + 0.3 * inject_Z (Z.of_nat n_critical)
   + 0.1 * inject_Z (Z.of_nat n_warning)
   + 0.05 * inject_Z (Z.of_nat n_info))%Q.

(** A number clamped to the interval from 0 to 1. *)
Definition clamp01 (x : Q) : Q :=
  if Qle_bool x 0 then 0%Q else if Qle_bool 1 x then 1%Q else x.

Definition count_severity (s : severity_t) (issues : list ValidationIssue.t)
    : nat :=
  List.length
    (filter (fun i => severity_eqb (ValidationIssue.severity i) s) issues).

(** Steps and requests on which the claims are tried. *)
Definition fetch_weather_step : PlanStep.t :=
  PlanStep.mk "step_1" "fetch_weather"
    [("latitude", PFloat 19.0760); ("longitude", PFloat 72.8777)] None.

Definition get_weather_step : PlanStep.t :=
  PlanStep.mk "step_1" "get_weather"
    [("latitude", PFloat 19.0760); ("longitude", PFloat 72.8777)] None.

Definition sample_plan : PlannerOutput.t :=
  _create_fallback_plan "plan_20240210_190000" "Mumbai" 19.0760 72.8777
    (Some 1500%Q) (Some "vegetarian, romantic").

Definition request_at (date_time : string) : DatePlanRequest.t :=
  DatePlanRequest.mk "Mumbai" (Some 1500%Q) date_time
    (Some "vegetarian, romantic") (Some ["vegetarian"]) None.

(** Case analysis on every test of the goal. *)
Ltac split_tests :=
  repeat match goal with
         | |- context [if ?b then _ else _] => destruct b eqn:?
         | |- context [match ?o with Some _ => _ | None => _ end] =>
             destruct o eqn:?
         end.

(** ** Definitions used to state the further properties *)

Section ProviderTrace.
Context {World : Type} `{Services World}.

(** The venues the provider returns during a run of the steps, in the order
    of the calls: the executor's loop, keeping what the venue provider
    answers instead of the step results. *)
Fixpoint venues_found (steps : list PlanStep.t) (w : World)
    : list VenueResult.t :=
  match steps with
  | [] => []
  | step :: rest =>
      let params := PlanStep.params step in
      let here :=
        if String.eqb (PlanStep.action step) "search_venues" then
          match
            search_venues (dict_get "query" (PStr "restaurant") params)
              (dict_get "latitude" (PInt 0) params)
              (dict_get "longitude" (PInt 0) params)
              (dict_get "radius" (PInt 3000) params)
              (dict_get "venue_type" (PStr "restaurant") params)
              (dict_get "max_results" (PInt 5) params) w
          with
          | (Ret venues, _) => venues
          | (Raise _, _) => []
          end
        else [] in
      (here ++ venues_found rest (snd (_execute_step step w)))%list
  end.
End ProviderTrace.

(** ** More helpers ([utils/helpers.py]) *)

(** [os.getenv(key, default)] over the process environment [env]. *)
Definition getenv (env : string -> option string) (key : string)
    (default : option string) : option string :=
  match env key with
  | Some value => Some value
  | None => default
  end.

Definition get_env_variable (env : string -> option string) (key : string)
    (default : option string) (required : bool) : outcome (option string) :=
  let value := getenv env key default in
  if andb required (negb (opt_truthy str_truthy value)) then
    Raise ("Required environment variable '" ++ key ++ "' is not set")
  else Ret value.

(** The loop of [is_venue_open] over the opening-hours lines. *)
Fixpoint scan_opening_hours (target_day : string) (opening_hours : list string)
    : bool :=
  match opening_hours with
  | [] => true
  | hours :: rest =>
      if contains (lower target_day) (lower hours) then
        if contains "closed" (lower hours) then false
        else scan_opening_hours target_day rest
      else scan_opening_hours target_day rest
  end.

Definition is_venue_open (opening_hours : option (list string))
    (target_day target_time : string) : bool :=
  if negb (opt_truthy list_truthy opening_hours) then true
  else match opening_hours with
       | Some lines => scan_opening_hours target_day lines
       | None => true
       end.

(** ** Provider services ([services/places_api.py], [services/weather_api.py]) *)

(** [PlacesAPIService.__init__]: the key read from the environment and the
    demo-mode flag computed from it. *)
Definition places_api_key (env : string -> option string)
    : outcome (option string) :=
  get_env_variable env "GOOGLE_PLACES_API_KEY" (Some "demo_mode") false.

Definition opt_str_eqb (o : option string) (s : string) : bool :=
  match o with
  | Some v => String.eqb v s
  | None => false
  end.

Definition places_demo_mode (env : string -> option string) : outcome bool :=
  api_key <- places_api_key env ;;
  Ret (orb (opt_str_eqb api_key "demo_mode_placeholder")
         (orb (opt_str_eqb api_key "demo_mode")
              (negb (opt_truthy str_truthy api_key)))).

(** [l[:n]] for an integer [n]: a negative [n] counts from the end. *)
Definition slice_to {A : Type} (n : Z) (l : list A) : list A :=
  if Z.leb 0 n then firstn (Z.to_nat n) l
  else firstn (List.length l - Z.to_nat (- n)) l.

(** The city label of the demo venues. *)
Definition demo_city (latitude longitude : Q) : string :=
  if andb (andb (Qltb 18.5 latitude) (Qltb latitude 19.5))
          (andb (Qltb 72.5 longitude) (Qltb longitude 73.5)) then "Mumbai"
  else if andb (andb (Qltb 12.5 latitude) (Qltb latitude 13.5))
               (andb (Qltb 77.0 longitude) (Qltb longitude 78.0)) then "Bangalore"
  else if andb (andb (Qltb 18.3 latitude) (Qltb latitude 18.7))
               (andb (Qltb 73.5 longitude) (Qltb longitude 74.0)) then "Pune"
  else "City".

Definition _get_demo_venues `{Builtins} (query : string)
    (latitude longitude : Q) (max_results : Z) : list VenueResult.t :=
  let city := demo_city latitude longitude in
  let maps_url :=
    "https://www.google.com/maps/search/?api=1&query="
      ++ str_float latitude ++ "," ++ str_float longitude in
  let venues :=
    [ VenueResult.mk ("Sample Restaurant 1 - " ++ city)
        ("123 Main Street, " ++ city) (Some 4.5%Q) (Some 2) (Some true)
        (Some ["Monday-Sunday: 11:00 AM – 11:00 PM"]) (Some "+91-1234567890")
        (Some "https://example.com/restaurant1") (Some maps_url)
        ["https://images.unsplash.com/photo-1517248135467-4c7edcad34c4"]
        (Some "Indian Vegetarian") (Some true);
      VenueResult.mk ("Demo Cafe - " ++ city)
        ("456 Park Avenue, " ++ city) (Some 4.3%Q) (Some 2) (Some true)
        (Some ["Monday-Sunday: 10:00 AM – 10:00 PM"]) (Some "+91-9876543210")
        (Some "https://example.com/cafe") (Some maps_url)
        ["https://images.unsplash.com/photo-1554118811-1e0d58224f24"]
        (Some "Cafe") (Some true);
      VenueResult.mk ("Sample Bistro - " ++ city)
        ("789 Garden Road, " ++ city) (Some 4.7%Q) (Some 3) (Some true)
        (Some ["Monday-Sunday: 12:00 PM – 11:00 PM"]) (Some "+91-5555555555")
        (Some "https://example.com/bistro") (Some maps_url)
        ["https://images.unsplash.com/photo-1592861956120-e524fc739696"]
        (Some "Continental") (Some false) ] in
  slice_to max_results venues.

(** [WeatherAPIService._generate_suggestion] *)
Definition _generate_suggestion (temperature : Q) (condition : string)
    (rain_prob : option Q) : string :=
  let temperature_advice :=
    if Qltb temperature 15 then ["Bring a jacket - it's quite cool"]
    else if Qltb temperature 20 then ["Wear a light sweater"]
    else if Qgtb temperature 32 then
      ["Dress light - it's hot outside"; "Choose an air-conditioned venue"]
    else [] in
  let rain_advice :=
    if opt_truthy (fun p => andb (float_truthy p) (Qgtb p 50)) rain_prob then
      [ "High chance of rain - carry an umbrella";
        "Consider indoor activities or venues with covered seating" ]
    else if contains "rain" (lower condition) then
      ["Rain expected - plan for indoor activities"]
    else [] in
  let condition_advice :=
    if orb (contains "clear" (lower condition))
           (contains "sunny" (lower condition)) then
      ["Perfect weather for outdoor dining"]
    else if contains "cloud" (lower condition) then
      ["Pleasant weather for a date"]
    else [] in
  let suggestions := (temperature_advice ++ rain_advice ++ condition_advice)%list in
  if list_truthy suggestions then String.concat " | " suggestions
  else "Weather looks good for your date".

(** ** The endpoint ([main.py]) *)

Module DatePlanResponse.
Record t : Type := mk {
  success : bool;
  plan_id : string;
  message : string;
  plan : option FinalDatePlan.t;
  errors : list string;
  processing_time_seconds : Q
}.
End DatePlanResponse.

(** What [create_date_plan] hands to the web framework: a response, or the
    [HTTPException] it re-raises. *)
Inductive endpoint_result : Type :=
| HTTPException (status_code : Z) (detail : string)
| Returned (response : DatePlanResponse.t).

(** [[issue.message for issue in issues if issue.severity == "critical"]] *)
Definition critical_messages (issues : list ValidationIssue.t) : list string :=
  map ValidationIssue.message (filter is_critical issues).

Definition max_retries : nat := 1.

Section Endpoint.
Context {World : Type} `{Services World} `{PlannerEnv World}.
Context `{Builtins} `{Validation}.

(** The [while] loop of the retry logic, on the number of retries left:
    each turn executes the same plan again, without a retry list, and
    verifies the new report. *)
Fixpoint retry_loop (retries_left : nat) (planned : PlannerOutput.t)
    (user_request : DatePlanRequest.t) (verifier_output : VerifierOutput.t)
    (w : World) : outcome VerifierOutput.t * World :=
  match retries_left with
  | O => (Ret verifier_output, w)
  | S retries_left' =>
      if negb (VerifierOutput.approved verifier_output) then
        let (executor_output, w1) := execute planned None w in
        match verify planned executor_output user_request with
        | Ret verifier_output' =>
            retry_loop retries_left' planned user_request verifier_output' w1
        | Raise e => (Raise e, w1)
        end
      else (Ret verifier_output, w)
  end.

(** The handler of [except Exception]. *)
Definition internal_error (start_time : Q) (e : string) (w : World)
    : endpoint_result * World :=
  let (now, w') := time_time w in
  (Returned
     (DatePlanResponse.mk false "error" "Internal server error" None [e]
        (round2 (now - start_time)%Q)),
   w').

Definition create_date_plan (request : DatePlanRequest.t) (w : World)
    : endpoint_result * World :=
  let (start_time, w0) := time_time w in
  let user_request := request in
  let (planned, w1) := plan user_request w0 in
  if Nat.eqb (List.length (PlannerOutput.steps planned)) 0 then
    (HTTPException 500 "Planner failed to create a valid plan", w1)
  else
    let (executor_output, w2) := execute planned None w1 in
    match verify planned executor_output user_request with
    | Raise e => internal_error start_time e w2
    | Ret verifier_output =>
        match retry_loop max_retries planned user_request verifier_output w2 with
        | (Raise e, w3) => internal_error start_time e w3
        | (Ret verifier_output, w3) =>
            let (now, w4) := time_time w3 in
            let processing_time := (now - start_time)%Q in
            match VerifierOutput.approved verifier_output,
                  VerifierOutput.final_output verifier_output with
            | true, Some final_output =>
                (Returned
                   (DatePlanResponse.mk true (PlannerOutput.plan_id planned)
                      "Date plan created successfully!" (Some final_output) []
                      (round2 processing_time)),
                 w4)
            | _, _ =>
                let error_messages :=
                  critical_messages (VerifierOutput.issues verifier_output) in
                (Returned
                   (DatePlanResponse.mk false (PlannerOutput.plan_id planned)
                      "Could not create a suitable date plan" None
                      (if list_truthy error_messages then error_messages
                       else ["Unable to find suitable venues or data"])
                      (round2 processing_time)),
                 w4)
            end
        end
    end.
End Endpoint.

(** More steps on which the properties are tried. *)
Definition search_venues_step : PlanStep.t :=
  PlanStep.mk "step_2" "search_venues"
    [("query", PStr "vegetarian, romantic restaurant"); ("max_results", PInt 5)]
    None.

Definition check_events_step : PlanStep.t :=
  PlanStep.mk "step_5" "check_events" [("city", PStr "Mumbai")] None.

(** * Properties *)

(** ** The executor *)

Section ExecutorFacts.
Context {World : Type} `{Services World}.

Lemma step_status_eqb_eq (a b : step_status) :
  step_status_eqb a b = true <-> a = b.
Proof. destruct a, b; simpl; split; congruence. Qed.

Lemma success_count_le (results : list ExecutorStepResult.t) :
  (success_count results <= List.length results)%nat.
Proof. apply filter_length_le. Qed.

Lemma success_count_all (results : list ExecutorStepResult.t) :
  success_count results = List.length results <->
  (forall r, In r results -> ExecutorStepResult.status r = success).
Proof.
  unfold success_count.
  induction results as [|r rest IH]; simpl.
  - split; [intros _ r [] | reflexivity].
  - unfold is_success at 1.
    destruct (step_status_eqb (ExecutorStepResult.status r) success) eqn:E; simpl.
    + apply step_status_eqb_eq in E. split.
      * intros Hlen r' [<- | Hin]; [exact E|].
        apply IH; [lia | exact Hin].
      * intros Hall. f_equal. apply IH. intros r' Hin. apply Hall. now right.
    + split.
      * intros Hlen. pose proof (filter_length_le is_success rest). lia.
      * intros Hall. specialize (Hall r (or_introl eq_refl)).
        apply step_status_eqb_eq in Hall. congruence.
Qed.

Lemma success_count_none (results : list ExecutorStepResult.t) :
  success_count results = 0%nat <->
  (forall r, In r results -> ExecutorStepResult.status r <> success).
Proof.
  unfold success_count.
  induction results as [|r rest IH]; simpl.
  - split; [intros _ r [] | reflexivity].
  - unfold is_success at 1.
    destruct (step_status_eqb (ExecutorStepResult.status r) success) eqn:E; simpl.
    + apply step_status_eqb_eq in E. split; [discriminate|].
      intros Hall. exfalso. exact (Hall r (or_introl eq_refl) E).
    + split.
      * intros Hz r' [<- | Hin].
        -- intros Hs. apply step_status_eqb_eq in Hs. congruence.
        -- now apply IH.
      * intros Hall. apply IH. intros r' Hin. apply Hall. now right.
Qed.

Lemma success_count_pos (results : list ExecutorStepResult.t) :
  (0 < success_count results)%nat <->
  (exists r, In r results /\ ExecutorStepResult.status r = success).
Proof.
  unfold success_count. split.
  - intros Hpos.
    destruct (filter is_success results) as [|r l] eqn:E; [simpl in Hpos; lia|].
    assert (Hin : In r (filter is_success results)) by (rewrite E; now left).
    apply filter_In in Hin. destruct Hin as [Hin Hs].
    exists r. split; [exact Hin | now apply step_status_eqb_eq].
  - intros [r [Hin Hs]].
    assert (Hf : In r (filter is_success results)).
    { apply filter_In. split; [exact Hin | now apply step_status_eqb_eq]. }
    destruct (filter is_success results); [destruct Hf | simpl; lia].
Qed.

(** What [execute] returns, in terms of the loop and the two clock reads. *)
Lemma execute_unfold (plan : PlannerOutput.t)
    (retry_steps : option (list string)) (w : World) :
  execute plan retry_steps w =
  (ExecutorOutput.mk (PlannerOutput.plan_id plan)
     (fst (run_steps (steps_to_execute plan retry_steps) (snd (time_time w))))
     (determine_overall_status
        (fst (run_steps (steps_to_execute plan retry_steps) (snd (time_time w)))))
     (round2
        (fst (time_time
                (snd (run_steps (steps_to_execute plan retry_steps)
                        (snd (time_time w)))))
         - fst (time_time w))%Q),
   snd (time_time
          (snd (run_steps (steps_to_execute plan retry_steps)
                  (snd (time_time w)))))).
Proof.
  unfold execute.
  destruct (time_time w) as [t0 w1]; simpl.
  destruct (run_steps (steps_to_execute plan retry_steps) w1) as [rs w2]; simpl.
  destruct (time_time w2) as [t1 w3]; reflexivity.
Qed.

Lemma dispatch_step_id (step : PlanStep.t) (w w' : World)
    (result : ExecutorStepResult.t) :
  dispatch step w = (Ret result, w') ->
  ExecutorStepResult.step_id result = PlanStep.id step.
Proof.
  unfold dispatch.
  destruct (String.eqb (PlanStep.action step) "get_weather").
  { unfold _get_weather.
    destruct (get_forecast _ _ _ w) as [[[wr|]|e] w1]; intros E;
      inversion E; reflexivity. }
  destruct (String.eqb (PlanStep.action step) "search_venues").
  { unfold _search_venues.
    destruct (search_venues _ _ _ _ _ _ w) as [[venues|e] w1];
      [destruct (list_truthy venues)|]; intros E; inversion E; reflexivity. }
  destruct (String.eqb (PlanStep.action step) "check_events").
  { unfold _check_events. intros E; inversion E; reflexivity. }
  destruct (String.eqb (PlanStep.action step) "get_images").
  { unfold _get_images.
    destruct (search_images _ _ w) as [[images|e] w1];
      [destruct (list_truthy images)|]; intros E; inversion E; reflexivity. }
  destruct (String.eqb (PlanStep.action step) "compose_final").
  { unfold _compose_final. intros E; inversion E; reflexivity. }
  intros E; inversion E; reflexivity.
Qed.

Lemma execute_step_id (step : PlanStep.t) (w : World) :
  ExecutorStepResult.step_id (fst (_execute_step step w)) = PlanStep.id step.
Proof.
  unfold _execute_step.
  destruct (dispatch step w) as [[result|e] w'] eqn:E; simpl.
  - exact (dispatch_step_id _ _ _ _ E).
  - reflexivity.
Qed.

Lemma run_steps_ids (steps : list PlanStep.t) (w : World) :
  map ExecutorStepResult.step_id (fst (run_steps steps w)) =
  map PlanStep.id steps.
Proof.
  revert w. induction steps as [|step rest IH]; intros w; simpl; [reflexivity|].
  pose proof (execute_step_id step w) as Hid.
  destruct (_execute_step step w) as [result w1]; simpl in Hid.
  specialize (IH w1).
  destruct (run_steps rest w1) as [results w2]; simpl in *.
  now rewrite Hid, IH.
Qed.
End ExecutorFacts.

Section ExecutorClaims.
Context {World : Type} `{Services World}.

Lemma determine_overall_status_cases (results : list ExecutorStepResult.t) :
  (determine_overall_status results = overall_success /\
   success_count results = List.length results) \/
  (determine_overall_status results = overall_partial_success /\
   (0 < success_count results < List.length results)%nat) \/
  (determine_overall_status results = overall_failed /\
   success_count results = 0%nat /\ (0 < List.length results)%nat).
Proof.
  unfold determine_overall_status.
  pose proof (success_count_le results) as Hle.
  destruct (Nat.eqb (success_count results) (List.length results)) eqn:E1.
  - apply Nat.eqb_eq in E1. now left.
  - apply Nat.eqb_neq in E1. right.
    destruct (Nat.ltb 0 (success_count results)) eqn:E2.
    + apply Nat.ltb_lt in E2. left. split; [reflexivity | lia].
    + apply Nat.ltb_ge in E2. right. split; [reflexivity | lia].
Qed.

(** C2 (as amended): the overall status of the report of [execute] is
    success iff every step result has status success; failed iff there is
    at least one result and none has status success; partial_success iff
    some result succeeded and some did not.  In particular k successes
    among N results with 0 < k < N give partial_success. *)
Theorem overall_status_rule (plan : PlannerOutput.t)
    (retry_steps : option (list string)) (w : World) :
  let out := fst (execute plan retry_steps w) in
  let results := ExecutorOutput.results out in
  (ExecutorOutput.overall_status out = overall_success <->
   (forall r, In r results -> ExecutorStepResult.status r = success)) /\
  (ExecutorOutput.overall_status out = overall_failed <->
   results <> [] /\
   (forall r, In r results -> ExecutorStepResult.status r <> success)) /\
  (ExecutorOutput.overall_status out = overall_partial_success <->
   (exists r, In r results /\ ExecutorStepResult.status r = success) /\
   (exists r, In r results /\ ExecutorStepResult.status r <> success)) /\
  ((0 < success_count results < List.length results)%nat ->
   ExecutorOutput.overall_status out = overall_partial_success).
Proof.
  rewrite execute_unfold; simpl.
  set (results := fst (run_steps _ _)).
  pose proof (success_count_all results) as Hall.
  pose proof (success_count_none results) as Hnone.
  pose proof (success_count_pos results) as Hpos.
  assert (Hsome_not :
    (success_count results < List.length results)%nat <->
    exists r, In r results /\ ExecutorStepResult.status r <> success).
  { split.
    - intros Hlt.
      assert (Hex : Exists (fun r => ExecutorStepResult.status r <> success) results).
      { apply neg_Forall_Exists_neg.
        - intros r. destruct (ExecutorStepResult.status r);
            [left; reflexivity | right; discriminate | right; discriminate].
        - intros HF. rewrite Forall_forall in HF.
          apply Hall in HF. lia. }
      apply Exists_exists in Hex. exact Hex.
    - intros [r [Hin Hs]].
      pose proof (success_count_le results) as Hle.
      destruct (Nat.eq_dec (success_count results) (List.length results)) as [E|E];
        [|lia].
      exfalso. apply Hs. now apply Hall. }
  assert (Hlen : (0 < List.length results)%nat <-> results <> []).
  { destruct results; simpl; split; intros; try congruence; lia. }
  destruct (determine_overall_status_cases results)
    as [[E Hc] | [[E Hc] | [E [Hc Hn]]]]; rewrite E;
    repeat split; intros; try discriminate; try reflexivity; try lia.
  - now apply Hall.
  - exfalso. destruct H0 as [Hne Hno]. apply Hlen in Hne.
    apply Hnone in Hno. lia.
  - exfalso. destruct H0 as [_ Hex]. apply Hsome_not in Hex. lia.
  - exfalso. assert (E' : success_count results = List.length results)
      by (now apply Hall). lia.
  - exfalso. destruct H0 as [_ Hno]. apply Hnone in Hno. lia.
  - apply Hpos. lia.
  - apply Hsome_not. lia.
  - exfalso. assert (E' : success_count results = List.length results)
      by (now apply Hall). lia.
  - now apply Hlen.
  - now apply Hnone.
  - exfalso. destruct H0 as [Hex _]. apply Hpos in Hex. lia.
Qed.

(** C6 (as amended): for a step whose action tag is none of the five tags
    the executor dispatches on (get_weather, search_venues, check_events,
    get_images, compose_final), step execution returns, leaving the world
    as it was, a result with status failed, source executor, an empty
    payload and the message "Unknown action: " followed by the tag. *)
Theorem unknown_action_fails (step : PlanStep.t) (w : World) :
  ~ In (PlanStep.action step) action_enum ->
  _execute_step step w =
  (ExecutorStepResult.mk (PlanStep.id step) (PlanStep.action step) failed []
     "executor" (Some ("Unknown action: " ++ PlanStep.action step)),
   w).
Proof.
  intros Hnot. unfold _execute_step, dispatch.
  repeat match goal with
         | |- context [String.eqb ?a ?b] =>
             destruct (String.eqb a b) eqn:?E;
             [ apply String.eqb_eq in E; exfalso; apply Hnot;
               rewrite E; simpl; tauto
             | clear E ]
         end.
  reflexivity.
Qed.

(** C8: [execute] with the empty retry list is [execute] without a retry
    list, on every plan and in every state of the world; its results are
    those of all the steps of the plan, in the order of the plan. *)
Theorem empty_retry_list_is_absent (plan : PlannerOutput.t) (w : World) :
  execute plan (Some []) w = execute plan None w /\
  steps_to_execute plan (Some []) = PlannerOutput.steps plan /\
  map ExecutorStepResult.step_id
    (ExecutorOutput.results (fst (execute plan (Some []) w))) =
  map PlanStep.id (PlannerOutput.steps plan).
Proof.
  split; [reflexivity|]. split; [reflexivity|].
  rewrite execute_unfold; simpl.
  apply run_steps_ids.
Qed.

(** C9: when no step is selected for execution, the report of [execute]
    has no result and its overall status is success. *)
Theorem no_step_selected_is_success (plan : PlannerOutput.t)
    (retry_steps : option (list string)) (w : World) :
  steps_to_execute plan retry_steps = [] ->
  ExecutorOutput.results (fst (execute plan retry_steps w)) = [] /\
  ExecutorOutput.overall_status (fst (execute plan retry_steps w)) =
    overall_success /\
  overall_str (ExecutorOutput.overall_status (fst (execute plan retry_steps w))) =
    "success".
Proof.
  intros Hsel. rewrite execute_unfold; simpl. rewrite Hsel; simpl.
  repeat split.
Qed.
End ExecutorClaims.

(** ** The verifier *)

Lemma Qltb_true (a b : Q) : Qltb a b = true -> (a < b)%Q.
Proof.
  unfold Qltb. intros E. apply negb_true_iff in E.
  apply Qnot_le_lt. intros Hle. apply Qle_bool_iff in Hle. congruence.
Qed.

Lemma Qltb_false (a b : Q) : Qltb a b = false -> (b <= a)%Q.
Proof.
  unfold Qltb. intros E. apply negb_false_iff in E. now apply Qle_bool_iff.
Qed.

Lemma Qle_bool_false (a b : Q) : Qle_bool a b = false -> (b < a)%Q.
Proof.
  intros E. apply Qnot_le_lt. intros Hle. apply Qle_bool_iff in Hle. congruence.
Qed.

Lemma severity_eqb_eq (a b : severity_t) : severity_eqb a b = true <-> a = b.
Proof. destruct a, b; simpl; split; congruence. Qed.

Section VerifierFacts.
Context `{Builtins} `{Validation}.

Lemma validate_weather_critical (weather : option WeatherResult.t) :
  filter is_critical (_validate_weather weather) = [].
Proof.
  unfold _validate_weather. destruct weather as [wr|]; [|reflexivity].
  rewrite filter_app. split_tests; reflexivity.
Qed.

Lemma validate_budget_critical (venues : list VenueResult.t)
    (budget : option Q) :
  filter is_critical (_validate_budget venues budget) = [].
Proof. unfold _validate_budget. split_tests; reflexivity. Qed.

Lemma validate_venues_critical (venues : list VenueResult.t)
    (user_request : DatePlanRequest.t) :
  filter is_critical (_validate_venues venues user_request) =
  if Nat.eqb (List.length venues) 0 then [no_venues_issue] else [].
Proof.
  unfold _validate_venues. cbv zeta. rewrite !filter_app.
  split_tests; reflexivity.
Qed.

Lemma validation_issues_critical (venues : list VenueResult.t)
    (weather : option WeatherResult.t) (user_request : DatePlanRequest.t) :
  filter is_critical (validation_issues venues weather user_request) =
  if Nat.eqb (List.length venues) 0 then [no_venues_issue] else [].
Proof.
  unfold validation_issues.
  rewrite !filter_app, validate_venues_critical, validate_weather_critical,
    validate_budget_critical.
  now rewrite !app_nil_r.
Qed.

(** With no venue the issue list starts with the critical venues issue. *)
Lemma validation_issues_no_venues (weather : option WeatherResult.t)
    (user_request : DatePlanRequest.t) :
  exists rest,
    validation_issues [] weather user_request = no_venues_issue :: rest.
Proof.
  unfold validation_issues, _validate_venues. cbv zeta. simpl.
  eexists. reflexivity.
Qed.

(** What a returning [verify] has computed. *)
Lemma verify_inv (plan : PlannerOutput.t) (executor_output : ExecutorOutput.t)
    (user_request : DatePlanRequest.t) (out : VerifierOutput.t) :
  verify plan executor_output user_request = Ret out ->
  exists venues events images,
    _extract_venues executor_output = Ret venues /\
    _extract_events executor_output = Ret events /\
    _extract_images executor_output = Ret images /\
    let weather := _extract_weather executor_output in
    let issues := validation_issues venues weather user_request in
    let safety_check := _perform_safety_check venues user_request in
    VerifierOutput.issues out = issues /\
    VerifierOutput.approved out =
      andb (Nat.eqb (List.length (filter is_critical issues)) 0)
           (Nat.ltb 0 (List.length venues)) /\
    VerifierOutput.confidence_score out =
      _calculate_confidence venues weather issues /\
    (VerifierOutput.approved out = true ->
     VerifierOutput.retry_recommendations out = [] /\
     exists final_plan,
       _compose_final_plan plan user_request venues weather events images
         safety_check = Ret final_plan /\
       VerifierOutput.final_output out = Some final_plan) /\
    (VerifierOutput.approved out = false ->
     VerifierOutput.final_output out = None /\
     VerifierOutput.retry_recommendations out =
       _generate_retry_recommendations issues executor_output).
Proof.
  unfold verify.
  destruct (_extract_venues executor_output) as [venues|e]; [|discriminate].
  destruct (_extract_events executor_output) as [events|e]; [|discriminate].
  destruct (_extract_images executor_output) as [images|e]; [|discriminate].
  cbn [bind]. cbv zeta.
  set (issues := validation_issues _ _ _).
  set (approved := andb _ _).
  intros Hv. exists venues, events, images.
  do 3 (split; [reflexivity|]). cbv zeta.
  destruct approved eqn:Happ.
  - destruct (_compose_final_plan _ _ _ _ _ _ _) as [fp|e] eqn:Hfp;
      [|discriminate].
    cbn [bind] in Hv. inversion Hv; subst out; clear Hv. cbn.
    do 3 (split; [first [reflexivity | symmetry; exact Happ]|]).
    split; [|discriminate].
    intros _. split; [reflexivity|]. now exists fp.
  - inversion Hv; subst out; clear Hv. cbn.
    do 3 (split; [first [reflexivity | symmetry; exact Happ]|]).
    split; [discriminate|].
    intros _. split; reflexivity.
Qed.


Lemma retry_recommendations_flat_map (issues : list ValidationIssue.t)
    (executor_output : ExecutorOutput.t) :
  _generate_retry_recommendations issues executor_output =
  flat_map
    (fun issue =>
       if andb (is_critical issue)
               (String.eqb (ValidationIssue.category issue) "venues")
       then retry_strings else [])
    issues.
Proof.
  induction issues as [|issue rest IH]; simpl; [reflexivity|].
  rewrite IH. unfold is_critical.
  destruct (severity_eqb _ critical); simpl; [|reflexivity].
  destruct (String.eqb _ "venues"); reflexivity.
Qed.

Lemma fold_deductions (issues : list ValidationIssue.t) (score : Q) :
  (fold_left (fun score issue => score - issue_deduction issue) issues score
   == score
      - (0.3 * inject_Z (Z.of_nat (count_severity critical issues))
         + 0.1 * inject_Z (Z.of_nat (count_severity warning issues))
         + 0.05 * inject_Z (Z.of_nat (count_severity info issues))))%Q.
Proof.
  revert score. induction issues as [|issue rest IH]; intros score.
  - simpl. unfold count_severity; simpl.
    change (inject_Z 0) with 0%Q. lra.
  - simpl fold_left. rewrite IH. unfold count_severity, issue_deduction.
    simpl filter.
    destruct (ValidationIssue.severity issue); simpl severity_eqb;
      cbv iota; simpl List.length; rewrite Nat2Z.inj_succ, <- Z.add_1_r,
      inject_Z_plus; change (inject_Z 1) with 1%Q; lra.
Qed.

Lemma clamp_py (x : Q) : (py_max 0.0 (py_min 1.0 x) == clamp01 x)%Q.
Proof.
  unfold py_max, py_min, clamp01, Qgtb.
  destruct (Qltb x 1.0) eqn:E1.
  - apply Qltb_true in E1.
    destruct (Qltb 0.0 x) eqn:E2.
    + apply Qltb_true in E2.
      destruct (Qle_bool x 0) eqn:E3; [apply Qle_bool_iff in E3; lra|].
      destruct (Qle_bool 1 x) eqn:E4; [apply Qle_bool_iff in E4; lra|].
      reflexivity.
    + apply Qltb_false in E2.
      destruct (Qle_bool x 0) eqn:E3; [reflexivity|].
      apply Qle_bool_false in E3. lra.
  - apply Qltb_false in E1.
    destruct (Qltb 0.0 1.0) eqn:E2; [|discriminate].
    destruct (Qle_bool x 0) eqn:E3; [apply Qle_bool_iff in E3; lra|].
    destruct (Qle_bool 1 x) eqn:E4; [reflexivity|].
    apply Qle_bool_false in E4. lra.
Qed.

Lemma clamp01_proper (x y : Q) : (x == y -> clamp01 x == clamp01 y)%Q.
Proof.
  intros E. unfold clamp01.
  assert (E0 : Qle_bool x 0 = Qle_bool y 0)
    by (apply Qleb_comp; [exact E | reflexivity]).
  assert (E1 : Qle_bool 1 x = Qle_bool 1 y)
    by (apply Qleb_comp; [reflexivity | exact E]).
  rewrite E0, E1.
  destruct (Qle_bool y 0); [reflexivity|].
  destruct (Qle_bool 1 y); [reflexivity | exact E].
Qed.

Lemma clamp01_range (x : Q) : (0 <= clamp01 x <= 1)%Q.
Proof.
  unfold clamp01.
  destruct (Qle_bool x 0) eqn:E1; [lra|]. apply Qle_bool_false in E1.
  destruct (Qle_bool 1 x) eqn:E2; [lra|]. apply Qle_bool_false in E2. lra.
Qed.

End VerifierFacts.

Section VerifierClaims.
Context `{Builtins} `{Validation}.

(** C1: whenever [verify] returns, [approved] is true if and only if the
    issue list it computed holds no issue of critical severity and the
    venue list it extracted is not empty; in particular an empty venue
    list gives [approved = false]. *)
Theorem approval_rule (plan : PlannerOutput.t)
    (executor_output : ExecutorOutput.t) (user_request : DatePlanRequest.t)
    (out : VerifierOutput.t) :
  verify plan executor_output user_request = Ret out ->
  exists venues,
    _extract_venues executor_output = Ret venues /\
    (VerifierOutput.approved out = true <->
     (forall issue, In issue (VerifierOutput.issues out) ->
                    ValidationIssue.severity issue <> critical) /\
     venues <> []) /\
    (venues = [] -> VerifierOutput.approved out = false).
Proof.
  intros Hv. apply verify_inv in Hv.
  destruct Hv as (venues & events & images & Hven & _ & _ & Hrest).
  cbv zeta in Hrest. destruct Hrest as (Hiss & Happ & _).
  exists venues. split; [exact Hven|]. rewrite Happ, Hiss.
  set (issues := validation_issues _ _ _).
  split; [split|].
  - intros Hb. apply andb_true_iff in Hb. destruct Hb as [Hc Hn].
    apply Nat.eqb_eq in Hc. apply Nat.ltb_lt in Hn. split.
    + intros issue Hin Hsev.
      assert (Hf : In issue (filter is_critical issues)).
      { apply filter_In. split; [exact Hin|].
        unfold is_critical. now apply severity_eqb_eq. }
      destruct (filter is_critical issues); [destruct Hf | discriminate].
    + intros ->. simpl in Hn. lia.
  - intros [Hnone Hne]. apply andb_true_iff. split.
    + apply Nat.eqb_eq.
      destruct (filter is_critical issues) as [|issue l] eqn:E; [reflexivity|].
      exfalso.
      assert (Hf : In issue (filter is_critical issues)) by (rewrite E; now left).
      apply filter_In in Hf. destruct Hf as [Hin Hc].
      apply (Hnone issue Hin). now apply severity_eqb_eq.
    + apply Nat.ltb_lt. destruct venues; [congruence | simpl; lia].
  - intros ->. simpl. first [reflexivity | apply andb_false_r].
Qed.

(** C3: the confidence score is 1.0 minus the sum of the deductions (0.5
    for no venue, else 0.2 for fewer than three; 0.1 for missing weather;
    0.3, 0.1 and 0.05 for each critical, warning and info issue), clamped
    to the interval from 0 to 1; hence it always lies in that interval, in
    particular in every output of [verify]. *)
Theorem confidence_score_formula (venues : list VenueResult.t)
    (weather : option WeatherResult.t) (issues : list ValidationIssue.t) :
  (_calculate_confidence venues weather issues ==
   clamp01
     (1.0 - spec_deductions (List.length venues)
              (match weather with None => true | Some _ => false end)
              (count_severity critical issues)
              (count_severity warning issues)
              (count_severity info issues)))%Q /\
  (0 <= _calculate_confidence venues weather issues <= 1)%Q /\
  (forall plan executor_output user_request out,
     verify plan executor_output user_request = Ret out ->
     (0 <= VerifierOutput.confidence_score out <= 1)%Q).
Proof.
  assert (Hrange : forall v w i, (0 <= _calculate_confidence v w i <= 1)%Q).
  { intros v w i. unfold _calculate_confidence.
    pose proof (clamp_py (confidence_before_clamp v w i)) as E.
    pose proof (clamp01_range (confidence_before_clamp v w i)) as R.
    rewrite <- E in R. exact R. }
  split; [|split].
  - unfold _calculate_confidence. rewrite clamp_py. apply clamp01_proper.
    unfold confidence_before_clamp. cbv zeta. rewrite fold_deductions.
    unfold spec_deductions. destruct weather; split_tests; lra.
  - apply Hrange.
  - intros plan eo req out Hv. apply verify_inv in Hv.
    destruct Hv as (vs & es & ims & _ & _ & _ & Hrest).
    cbv zeta in Hrest. destruct Hrest as (_ & _ & Hconf & _).
    rewrite Hconf. apply Hrange.
Qed.

(** C7: in every output of [verify], [final_output] is present if and only
    if [approved] is true, and [retry_recommendations] is non-empty if and
    only if [approved] is false; the recommendations are the two fixed
    strings for each issue of critical severity and category venues, in
    the order of the issues, and nothing else. *)
Theorem final_output_iff_approved (plan : PlannerOutput.t)
    (executor_output : ExecutorOutput.t) (user_request : DatePlanRequest.t)
    (out : VerifierOutput.t) :
  verify plan executor_output user_request = Ret out ->
  (VerifierOutput.final_output out <> None <->
   VerifierOutput.approved out = true) /\
  (VerifierOutput.retry_recommendations out <> [] <->
   VerifierOutput.approved out = false) /\
  VerifierOutput.retry_recommendations out =
  flat_map
    (fun issue =>
       if andb (is_critical issue)
               (String.eqb (ValidationIssue.category issue) "venues")
       then [ "Retry venue search with broader criteria";
              "Increase search radius to 5000m" ]
       else [])
    (VerifierOutput.issues out).
Proof.
  intros Hv. apply verify_inv in Hv.
  destruct Hv as (venues & events & images & Hven & _ & _ & Hrest).
  cbv zeta in Hrest.
  destruct Hrest as (Hiss & Happ & _ & Htrue & Hfalse).
  rewrite validation_issues_critical in Happ.
  rewrite Hiss.
  destruct (VerifierOutput.approved out) eqn:Hb.
  - destruct (Htrue eq_refl) as [Hretry [fp [_ Hfp]]].
    rewrite Hfp, Hretry. repeat split; try congruence.
    symmetry. symmetry in Happ. apply andb_true_iff in Happ.
    destruct Happ as [Hc _].
    assert (Hcrit : filter is_critical
                      (validation_issues venues
                         (_extract_weather executor_output) user_request) = []).
    { rewrite validation_issues_critical. revert Hc.
      destruct (Nat.eqb (List.length venues) 0); [discriminate | reflexivity]. }
    revert Hcrit. generalize (validation_issues venues
      (_extract_weather executor_output) user_request).
    intros l. induction l as [|issue rest IH]; simpl; [reflexivity|].
    destruct (is_critical issue); [discriminate|]. simpl. exact IH.
  - destruct (Hfalse eq_refl) as [Hnone Hretry].
    rewrite Hnone, Hretry, retry_recommendations_flat_map.
    assert (Hnil : venues = []).
    { destruct venues as [|v vs]; [reflexivity|]. simpl in Happ. discriminate. }
    subst venues.
    destruct (validation_issues_no_venues (_extract_weather executor_output)
                user_request) as [rest Hrest].
    rewrite Hrest. simpl.
    repeat split; try congruence; try discriminate.
Qed.

End VerifierClaims.

Section ChecklistClaims.
Context `{Builtins} `{Validation}.

Lemma generate_safety_checklist_cases (venue_name time : string) :
  generate_safety_checklist venue_name time =
  if mentions_evening time then
    match checklist_hour time with
    | Ret hour =>
        Ret (if is_late_night hour
             then (fixed_checklist ++ late_night_items)%list
             else fixed_checklist)
    | Raise e => Raise e
    end
  else Ret fixed_checklist.
Proof.
  unfold generate_safety_checklist. cbv zeta.
  destruct (mentions_evening time); [|reflexivity].
  destruct (checklist_hour time) as [hour|e]; simpl; [|reflexivity].
  destruct (is_late_night hour); reflexivity.
Qed.

Lemma is_late_night_iff (hour : Z) :
  is_late_night hour = true <-> 21 <= hour \/ hour <= 4.
Proof.
  unfold is_late_night. rewrite orb_true_iff, !Z.leb_le. reflexivity.
Qed.

Lemma compose_final_plan_checklist (plan : PlannerOutput.t)
    (user_request : DatePlanRequest.t) (venues : list VenueResult.t)
    (weather : option WeatherResult.t) (events : list EventResult.t)
    (images : list ImageResult.t) (safety_check : SafetyCheck.t) :
  match
    generate_safety_checklist
      (match venues with v0 :: _ => VenueResult.name v0 | [] => "" end)
      (DatePlanRequest.date_time user_request)
  with
  | Ret checklist =>
      exists final_plan,
        _compose_final_plan plan user_request venues weather events images
          safety_check = Ret final_plan /\
        FinalDatePlan.safety_checklist final_plan = checklist
  | Raise e =>
      _compose_final_plan plan user_request venues weather events images
        safety_check = Raise e
  end.
Proof.
  unfold _compose_final_plan. cbv zeta.
  destruct (generate_safety_checklist _ _) as [checklist|e]; simpl.
  - eexists. split; reflexivity.
  - reflexivity.
Qed.

(** What [_compose_final_plan] computes for the checklist, as the code is
    written (its departure from the late-night rule is shown further down):
    the five fixed items, followed by the two late-night items exactly when
    the lower-cased date_time contains "night" or "pm" and the number read
    before the first ":" (0 when date_time has no ":") is at least 21 or at
    most 4.  The plan is composed if and only if that number can be read
    whenever it is asked for. *)
Lemma safety_checklist_computed (plan : PlannerOutput.t)
    (user_request : DatePlanRequest.t) (venues : list VenueResult.t)
    (weather : option WeatherResult.t) (events : list EventResult.t)
    (images : list ImageResult.t) (safety_check : SafetyCheck.t) :
  let date_time := DatePlanRequest.date_time user_request in
  let composed :=
    _compose_final_plan plan user_request venues weather events images
      safety_check in
  let late :=
    mentions_evening date_time = true /\
    exists hour, checklist_hour date_time = Ret hour /\ (21 <= hour \/ hour <= 4) in
  List.length fixed_checklist = 5%nat /\
  List.length late_night_items = 2%nat /\
  ((exists final_plan, composed = Ret final_plan) <->
   (mentions_evening date_time = true ->
    exists hour, checklist_hour date_time = Ret hour)) /\
  (forall final_plan,
     composed = Ret final_plan ->
     (FinalDatePlan.safety_checklist final_plan
        = (fixed_checklist ++ late_night_items)%list /\ late) \/
     (FinalDatePlan.safety_checklist final_plan = fixed_checklist /\ ~ late)) /\
  (contains ":" date_time = false -> checklist_hour date_time = Ret 0) /\
  (date_time = "Saturday 11pm" ->
   exists final_plan,
     composed = Ret final_plan /\
     FinalDatePlan.safety_checklist final_plan
       = (fixed_checklist ++ late_night_items)%list /\
     List.length (FinalDatePlan.safety_checklist final_plan) = 7%nat).
Proof.
  intros date_time composed late.
  pose proof (compose_final_plan_checklist plan user_request venues weather
                events images safety_check) as Hc.
  rewrite generate_safety_checklist_cases in Hc.
  fold date_time composed in Hc.
  split; [reflexivity|]. split; [reflexivity|].
  split; [|split; [|split]].
  - destruct (mentions_evening date_time) eqn:Em.
    + destruct (checklist_hour date_time) as [hour|e] eqn:Eh.
      * destruct Hc as [fp [Hfp _]]. split; [intros _ _; now exists hour|].
        intros _. now exists fp.
      * split.
        -- intros [fp Hfp]. congruence.
        -- intros Hh. destruct (Hh eq_refl) as [hour Hhour]. discriminate.
    + destruct Hc as [fp [Hfp _]]. split; [discriminate|].
      intros _. now exists fp.
  - intros final_plan Hfp. unfold late.
    destruct (mentions_evening date_time) eqn:Em.
    + destruct (checklist_hour date_time) as [hour|e] eqn:Eh.
      * destruct Hc as [fp [Hfp' Hlist]].
        assert (fp = final_plan) by congruence. subst fp.
        destruct (is_late_night hour) eqn:El.
        -- left. split; [exact Hlist|]. split; [reflexivity|].
           exists hour. split; [reflexivity|]. now apply is_late_night_iff.
        -- right. split; [exact Hlist|].
           intros [_ [hour' [Hh Hlate]]].
           inversion Hh; subst hour'.
           apply is_late_night_iff in Hlate. congruence.
      * congruence.
    + destruct Hc as [fp [Hfp' Hlist]].
      assert (fp = final_plan) by congruence. subst fp.
      right. split; [exact Hlist|]. intros [Hm _]. discriminate.
  - intros Hcolon. unfold checklist_hour. now rewrite Hcolon.
  - intros Hdt. rewrite Hdt in Hc. cbn in Hc.
    destruct Hc as [fp [Hfp Hlist]]. exists fp.
    split; [exact Hfp|]. split; [exact Hlist|]. now rewrite Hlist.
Qed.
End ChecklistClaims.

(** ** The planner *)

Section PlannerClaims.
Context {World : Type} `{PlannerEnv World}.

End PlannerClaims.

(** ** The claims on the sample runtime *)

(** The two ways of selecting no step: an empty plan, and a retry list that
    names no step of the plan. *)
Lemma steps_to_execute_empty (plan : PlannerOutput.t)
    (retry_steps : option (list string)) :
  PlannerOutput.steps plan = [] \/
  (exists ids, retry_steps = Some ids /\ ids <> [] /\
               forall s, In s (PlannerOutput.steps plan) -> id_in ids s = false) ->
  steps_to_execute plan retry_steps = [].
Proof.
  intros [Hnil | (ids & -> & Hne & Hnone)]; unfold steps_to_execute.
  - rewrite Hnil. destruct retry_steps as [[|i l]|]; reflexivity.
  - destruct ids as [|i l]; [congruence|]. cbn [opt_truthy list_truthy].
    induction (PlannerOutput.steps plan) as [|s rest IH]; [reflexivity|].
    cbn [filter]. rewrite (Hnone s (or_introl eq_refl)).
    apply IH. intros s' Hin. apply Hnone. now right.
Qed.

Lemma approval_rule_witness :
  exists out,
    @verify sample_builtins sample_validation empty_plan sample_executor_output
      sample_user_request = Ret out /\
    VerifierOutput.approved out = true /\
    exists venues,
      @_extract_venues sample_validation sample_executor_output = Ret venues /\
      (VerifierOutput.approved out = true <->
       (forall issue, In issue (VerifierOutput.issues out) ->
                      ValidationIssue.severity issue <> critical) /\
       venues <> []) /\
      (venues = [] -> VerifierOutput.approved out = false).
Proof.
  eexists. split; [vm_compute; reflexivity|]. split; [reflexivity|].
  apply (@approval_rule sample_builtins sample_validation empty_plan
           sample_executor_output sample_user_request).
  vm_compute. reflexivity.
Defined.

Lemma overall_status_rule_witness :
  (0 < success_count
         (ExecutorOutput.results
            (fst (execute (H := sample_services) sample_plan None 0%nat)))
     < List.length
         (ExecutorOutput.results
            (fst (execute (H := sample_services) sample_plan None 0%nat))))%nat /\
  ExecutorOutput.overall_status
    (fst (execute (H := sample_services) sample_plan None 0%nat))
  = overall_partial_success.
Proof.
  assert (Hk : (0 < success_count
                     (ExecutorOutput.results
                        (fst (execute (H := sample_services) sample_plan None 0%nat)))
                 < List.length
                     (ExecutorOutput.results
                        (fst (execute (H := sample_services) sample_plan None 0%nat))))%nat).
  { vm_compute. split; repeat constructor. }
  split; [exact Hk|].
  exact (proj2 (proj2 (proj2
           (overall_status_rule (H := sample_services) sample_plan None 0%nat))) Hk).
Defined.

(** C2 as stated fails on a plan without steps: no result has status
    success, and the overall status is success, not failed. *)
Lemma overall_status_counterexample :
  ~ (ExecutorOutput.overall_status
       (fst (execute (H := sample_services) empty_plan None 0%nat))
     = overall_failed <->
     (forall r,
        In r (ExecutorOutput.results
                (fst (execute (H := sample_services) empty_plan None 0%nat))) ->
        ExecutorStepResult.status r <> success)).
Proof.
  intros [_ Hback].
  assert (E : ExecutorOutput.overall_status
                (fst (execute (H := sample_services) empty_plan None 0%nat))
              = overall_failed).
  { apply Hback. intros r Hin. vm_compute in Hin. destruct Hin. }
  vm_compute in E. discriminate E.
Qed.

Lemma confidence_score_formula_witness :
  exists out,
    @verify sample_builtins sample_validation empty_plan sample_executor_output
      sample_user_request = Ret out /\
    (0 <= VerifierOutput.confidence_score out <= 1)%Q.
Proof.
  eexists. split; [vm_compute; reflexivity|].
  apply (proj2 (proj2
           (@confidence_score_formula sample_builtins sample_validation [] None []))
           empty_plan sample_executor_output sample_user_request).
  vm_compute. reflexivity.
Defined.

Lemma safety_checklist_computed_witness :
  exists final_plan,
    @_compose_final_plan sample_builtins empty_plan (request_at "Saturday 11pm")
      sample_venues (Some sample_weather) [] []
      (_perform_safety_check sample_venues (request_at "Saturday 11pm"))
    = Ret final_plan /\
    List.length (FinalDatePlan.safety_checklist final_plan) = 7%nat.
Proof.
  destruct (@safety_checklist_computed sample_builtins empty_plan
              (request_at "Saturday 11pm") sample_venues (Some sample_weather)
              [] [] (_perform_safety_check sample_venues
                       (request_at "Saturday 11pm")))
    as (_ & _ & _ & _ & _ & H11).
  destruct (H11 eq_refl) as (fp & Hfp & _ & Hlen).
  exists fp. split; [exact Hfp | exact Hlen].
Defined.

(** C4: the late-night items are meant for an hour of at least 21 or at
    most 4 (the test is commented "Late night" in the source), and the code
    misses that rule.  It never reads the hour of a time written without a
    colon, so "Saturday 7pm" (hour 19, the request of the repository's own
    tests) gets the two late-night items, in the helper and in the final
    plan that [verify] composes; it ignores the "pm" of a time written with
    a colon, so "11:30 pm" (hour 23) gets none; and it asks for "night" or
    "pm" before looking at the hour, so "23:00" gets none either. *)
Theorem late_night_items_misplaced :
  is_late_night 19 = false /\
  @generate_safety_checklist sample_builtins "Test Restaurant 1" "Saturday 7pm"
  = Ret (fixed_checklist ++ late_night_items)%list /\
  (exists out final_plan,
     @verify sample_builtins sample_validation empty_plan sample_executor_output
       sample_user_request = Ret out /\
     DatePlanRequest.date_time sample_user_request = "Saturday 7pm" /\
     VerifierOutput.final_output out = Some final_plan /\
     FinalDatePlan.safety_checklist final_plan
     = (fixed_checklist ++ late_night_items)%list /\
     List.length (FinalDatePlan.safety_checklist final_plan) = 7%nat) /\
  is_late_night 23 = true /\
  @generate_safety_checklist sample_builtins "Test Restaurant 1" "11:30 pm"
  = Ret fixed_checklist /\
  @generate_safety_checklist sample_builtins "Test Restaurant 1" "23:00"
  = Ret fixed_checklist /\
  List.length fixed_checklist = 5%nat.
Proof.
  split; [reflexivity|]. split; [reflexivity|].
  split.
  { do 2 eexists. split; [vm_compute; reflexivity|]. repeat split. }
  split; [reflexivity|]. split; [reflexivity|]. split; reflexivity.
Qed.



Lemma unknown_action_fails_witness :
  ~ In (PlanStep.action fetch_weather_step) action_enum /\
  _execute_step (H := sample_services) fetch_weather_step 0%nat =
  (ExecutorStepResult.mk "step_1" "fetch_weather" failed [] "executor"
     (Some "Unknown action: fetch_weather"),
   0%nat).
Proof.
  assert (Hn : ~ In (PlanStep.action fetch_weather_step) action_enum).
  { simpl. intros [E | [E | [E | [E | [E | []]]]]]; discriminate E. }
  split; [exact Hn|].
  exact (unknown_action_fails (H := sample_services) fetch_weather_step 0%nat Hn).
Defined.

(** C6 as stated fails on the tag get_weather: it is none of the five tags
    the specification lists, and the step is run by the weather handler. *)
Lemma unknown_action_counterexample :
  ~ In (PlanStep.action get_weather_step)
       ["fetch_weather"; "search_venues"; "check_events"; "fetch_images";
        "compose_final"] /\
  ExecutorStepResult.status
    (fst (_execute_step (H := sample_services) get_weather_step 0%nat))
  = success /\
  ExecutorStepResult.status
    (fst (_execute_step (H := sample_services) get_weather_step 0%nat))
  <> failed /\
  ExecutorStepResult.source
    (fst (_execute_step (H := sample_services) get_weather_step 0%nat))
  = "openweather".
Proof.
  split.
  { simpl. intros [E | [E | [E | [E | [E | []]]]]]; discriminate E. }
  split; [reflexivity|]. split; [discriminate | reflexivity].
Qed.

Lemma final_output_iff_approved_witness :
  exists out,
    @verify sample_builtins sample_validation empty_plan empty_executor_output
      sample_user_request = Ret out /\
    VerifierOutput.approved out = false /\
    VerifierOutput.final_output out = None /\
    (VerifierOutput.retry_recommendations out <> [] <->
     VerifierOutput.approved out = false) /\
    (VerifierOutput.final_output out <> None <->
     VerifierOutput.approved out = true).
Proof.
  eexists. split; [vm_compute; reflexivity|].
  split; [reflexivity|]. split; [reflexivity|].
  destruct (@final_output_iff_approved sample_builtins sample_validation
              empty_plan empty_executor_output sample_user_request _
              ltac:(vm_compute; reflexivity)) as (Hfinal & Hretry & _).
  split; [exact Hretry | exact Hfinal].
Defined.

Lemma no_step_selected_is_success_witness :
  (steps_to_execute empty_plan None = [] /\
   ExecutorOutput.overall_status
     (fst (execute (H := sample_services) empty_plan None 0%nat))
   = overall_success) /\
  (steps_to_execute sample_plan (Some ["step_9"]) = [] /\
   ExecutorOutput.results
     (fst (execute (H := sample_services) sample_plan (Some ["step_9"]) 0%nat))
   = [] /\
   ExecutorOutput.overall_status
     (fst (execute (H := sample_services) sample_plan (Some ["step_9"]) 0%nat))
   = overall_success).
Proof.
  split.
  - split; [reflexivity|].
    exact (proj1 (proj2
             (no_step_selected_is_success (H := sample_services) empty_plan None
                0%nat eq_refl))).
  - split; [reflexivity|].
    destruct (no_step_selected_is_success (H := sample_services) sample_plan
                (Some ["step_9"]) 0%nat eq_refl) as (Hres & Hst & _).
    split; [exact Hres | exact Hst].
Defined.


(** ** Runs of the scenarios of the specification *)

(** Scenario A: two rated venues and a forecast; the plan is approved with
    confidence 0.7 and a timeline of five entries. *)
Example scenario_a :
  exists out final_plan,
    @verify sample_builtins sample_validation empty_plan sample_executor_output
      sample_user_request = Ret out /\
    VerifierOutput.approved out = true /\
    (VerifierOutput.confidence_score out == 0.7)%Q /\
    VerifierOutput.final_output out = Some final_plan /\
    FinalDatePlan.city final_plan = "Mumbai" /\
    List.length (FinalDatePlan.timeline final_plan) = 5%nat.
Proof.
  do 2 eexists. split; [vm_compute; reflexivity|].
  repeat split.
Qed.

(** Scenario D: an unknown city resolves to the coordinates (0, 0). *)
Example scenario_d :
  CityCoords.lat (extract_city_coordinates "Atlantis") = 0.0%Q /\
  CityCoords.lon (extract_city_coordinates "Atlantis") = 0.0%Q /\
  CityCoords.lat (extract_city_coordinates " Mumbai ") = 19.0760%Q.
Proof. repeat split. Qed.

(** Without a colon the hour is 0, so an early evening gets the late-night
    items too; with text before the colon [int] raises. *)
Example saturday_7pm_checklist :
  @generate_safety_checklist sample_builtins "Test Restaurant 1" "Saturday 7pm"
  = Ret (fixed_checklist ++ late_night_items)%list /\
  @generate_safety_checklist sample_builtins "Test Restaurant 1" "10:30 pm"
  = Ret fixed_checklist /\
  @generate_safety_checklist sample_builtins "Test Restaurant 1" "Saturday 7:30pm"
  = Raise "invalid literal for int() with base 10: 'Saturday 7'".
Proof. repeat split. Qed.

(** * Further properties of the code *)

(** ** Step handlers of the executor *)

Section HandlerFacts.
Context {World : Type} `{Services World}.

(** The outcome of a venue-search step follows the answer of the provider:
    success with the dumped venues for a non-empty list, partial (not
    failed) for an empty one, failed with the text of the exception when
    the provider raises; the world is the one the provider left. *)
Theorem search_venues_step_status (step : PlanStep.t) (w : World) :
  PlanStep.action step = "search_venues" ->
  let params := PlanStep.params step in
  let call :=
    search_venues (dict_get "query" (PStr "restaurant") params)
      (dict_get "latitude" (PInt 0) params)
      (dict_get "longitude" (PInt 0) params)
      (dict_get "radius" (PInt 3000) params)
      (dict_get "venue_type" (PStr "restaurant") params)
      (dict_get "max_results" (PInt 5) params) w in
  let result := fst (_execute_step step w) in
  snd (_execute_step step w) = snd call /\
  (forall v venues,
     fst call = Ret (v :: venues) ->
     ExecutorStepResult.status result = success /\
     ExecutorStepResult.payload result
       = [("venues", PList (map venue_model_dump (v :: venues)))] /\
     ExecutorStepResult.source result = "google_places" /\
     ExecutorStepResult.error_message result = None) /\
  (fst call = Ret [] ->
   ExecutorStepResult.status result = partial /\
   ExecutorStepResult.payload result = [("venues", PList [])] /\
   ExecutorStepResult.source result = "google_places" /\
   ExecutorStepResult.error_message result
     = Some "No venues found matching criteria") /\
  (forall e,
     fst call = Raise e ->
     ExecutorStepResult.status result = failed /\
     ExecutorStepResult.payload result = [] /\
     ExecutorStepResult.source result = "executor" /\
     ExecutorStepResult.error_message result = Some e).
Proof.
  intros Hact params call result.
  unfold result, _execute_step, dispatch. rewrite Hact. cbn [String.eqb].
  change (String.eqb "search_venues" "get_weather") with false.
  change (String.eqb "search_venues" "search_venues") with true.
  cbv iota. unfold _search_venues. fold params. fold call.
  destruct call as [[[|v venues]|e] w']; cbn.
  - repeat split; intros; try discriminate.
  - repeat split; intros; try discriminate.
    all: match goal with E : Ret _ = Ret _ |- _ => inversion E; subst end.
    all: reflexivity.
  - repeat split; intros; try discriminate.
    all: match goal with E : Raise _ = Raise _ |- _ => inversion E; subst end.
    all: reflexivity.
Qed.

(** The outcome of a weather step: success with the dumped forecast, failed
    with "Failed to fetch weather data" and source openweather when the
    provider returns nothing, failed with source executor and the text of
    the exception when it raises. *)
Theorem get_weather_step_status (step : PlanStep.t) (w : World) :
  PlanStep.action step = "get_weather" ->
  let params := PlanStep.params step in
  let call :=
    get_forecast (dict_get "latitude" (PInt 0) params)
      (dict_get "longitude" (PInt 0) params)
      (dict_get "target_datetime" PNone params) w in
  let result := fst (_execute_step step w) in
  snd (_execute_step step w) = snd call /\
  (forall forecast,
     fst call = Ret (Some forecast) ->
     ExecutorStepResult.status result = success /\
     ExecutorStepResult.payload result = weather_model_dump forecast /\
     ExecutorStepResult.source result = "openweather") /\
  (fst call = Ret None ->
   ExecutorStepResult.status result = failed /\
   ExecutorStepResult.payload result = [] /\
   ExecutorStepResult.source result = "openweather" /\
   ExecutorStepResult.error_message result
     = Some "Failed to fetch weather data") /\
  (forall e,
     fst call = Raise e ->
     ExecutorStepResult.status result = failed /\
     ExecutorStepResult.source result = "executor" /\
     ExecutorStepResult.error_message result = Some e).
Proof.
  intros Hact params call result.
  unfold result, _execute_step, dispatch. rewrite Hact.
  change (String.eqb "get_weather" "get_weather") with true.
  cbv iota. unfold _get_weather. fold params. fold call.
  destruct call as [[[forecast|]|e] w']; cbn.
  - repeat split; intros; try discriminate.
    all: match goal with E : Ret _ = Ret _ |- _ => inversion E; subst end.
    all: reflexivity.
  - repeat split; intros; try discriminate.
  - repeat split; intros; try discriminate.
    all: match goal with E : Raise _ = Raise _ |- _ => inversion E; subst end.
    all: reflexivity.
Qed.

(** The events step and the composition step call no provider: they leave
    the world as it is and always succeed, the first with an empty event
    list. *)
Theorem placeholder_steps_succeed (step : PlanStep.t) (w : World) :
  PlanStep.action step = "check_events" \/
  PlanStep.action step = "compose_final" ->
  snd (_execute_step step w) = w /\
  ExecutorStepResult.status (fst (_execute_step step w)) = success /\
  (PlanStep.action step = "check_events" ->
   ExecutorStepResult.payload (fst (_execute_step step w))
     = [("events", PList [])]).
Proof.
  intros [Hact | Hact]; unfold _execute_step, dispatch; rewrite Hact; cbn;
    repeat split; intros; try discriminate.
Qed.
End HandlerFacts.

(** ** Runs of the executor *)

Section RunFacts.
Context {World : Type} `{Services World}.

Lemma dispatch_action (step : PlanStep.t) (w w' : World)
    (result : ExecutorStepResult.t) :
  dispatch step w = (Ret result, w') ->
  ExecutorStepResult.action result = PlanStep.action step.
Proof.
  unfold dispatch.
  destruct (String.eqb (PlanStep.action step) "get_weather").
  { unfold _get_weather.
    destruct (get_forecast _ _ _ w) as [[[wr|]|e] w1]; intros E;
      inversion E; reflexivity. }
  destruct (String.eqb (PlanStep.action step) "search_venues").
  { unfold _search_venues.
    destruct (search_venues _ _ _ _ _ _ w) as [[venues|e] w1];
      [destruct (list_truthy venues)|]; intros E; inversion E; reflexivity. }
  destruct (String.eqb (PlanStep.action step) "check_events").
  { unfold _check_events. intros E; inversion E; reflexivity. }
  destruct (String.eqb (PlanStep.action step) "get_images").
  { unfold _get_images.
    destruct (search_images _ _ w) as [[images|e] w1];
      [destruct (list_truthy images)|]; intros E; inversion E; reflexivity. }
  destruct (String.eqb (PlanStep.action step) "compose_final").
  { unfold _compose_final. intros E; inversion E; reflexivity. }
  intros E; inversion E; reflexivity.
Qed.

Lemma execute_step_action (step : PlanStep.t) (w : World) :
  ExecutorStepResult.action (fst (_execute_step step w)) = PlanStep.action step.
Proof.
  unfold _execute_step.
  destruct (dispatch step w) as [[result|e] w'] eqn:E; simpl.
  - exact (dispatch_action _ _ _ _ E).
  - reflexivity.
Qed.

Lemma run_steps_actions (steps : list PlanStep.t) (w : World) :
  map ExecutorStepResult.action (fst (run_steps steps w)) =
  map PlanStep.action steps.
Proof.
  revert w. induction steps as [|step rest IH]; intros w; simpl; [reflexivity|].
  pose proof (execute_step_action step w) as Hact.
  destruct (_execute_step step w) as [result w1]; simpl in Hact.
  specialize (IH w1).
  destruct (run_steps rest w1) as [results w2]; simpl in *.
  now rewrite Hact, IH.
Qed.

Lemma run_steps_cons (step : PlanStep.t) (rest : list PlanStep.t) (w : World) :
  fst (run_steps (step :: rest) w) =
  fst (_execute_step step w)
    :: fst (run_steps rest (snd (_execute_step step w))).
Proof.
  simpl. destruct (_execute_step step w) as [result w1]; simpl.
  destruct (run_steps rest w1); reflexivity.
Qed.

Lemma id_in_iff (ids : list string) (s : PlanStep.t) :
  id_in ids s = true <-> In (PlanStep.id s) ids.
Proof.
  unfold id_in. rewrite existsb_exists. split.
  - intros [x [Hin E]]. apply String.eqb_eq in E. now subst x.
  - intros Hin. exists (PlanStep.id s). split; [exact Hin | apply String.eqb_refl].
Qed.

(** [execute] reports one result per selected step, in the order of the
    plan, each carrying the id and the action tag of its step.  With a
    non-empty retry list the selected steps are exactly the steps of the
    plan whose id is listed (so ids that name no step are ignored); with no
    list, or an empty one, they are all the steps. *)
Theorem execute_follows_selection (plan : PlannerOutput.t)
    (retry_steps : option (list string)) (w : World) :
  let out := fst (execute plan retry_steps w) in
  let selected := steps_to_execute plan retry_steps in
  ExecutorOutput.plan_id out = PlannerOutput.plan_id plan /\
  map ExecutorStepResult.step_id (ExecutorOutput.results out)
    = map PlanStep.id selected /\
  map ExecutorStepResult.action (ExecutorOutput.results out)
    = map PlanStep.action selected /\
  List.length (ExecutorOutput.results out) = List.length selected /\
  (forall s,
     In s selected <->
     In s (PlannerOutput.steps plan) /\
     (forall ids, retry_steps = Some ids -> ids <> [] -> In (PlanStep.id s) ids)).
Proof.
  intros out selected. unfold out. rewrite execute_unfold. simpl.
  fold selected.
  split; [reflexivity|].
  split; [apply run_steps_ids|].
  split; [apply run_steps_actions|].
  split.
  - rewrite <- (length_map ExecutorStepResult.step_id), run_steps_ids.
    apply length_map.
  - intros s. unfold selected, steps_to_execute.
    destruct retry_steps as [[|i ids]|]; cbn [opt_truthy list_truthy].
    + split; [intros Hin; split; [exact Hin|] | intros [Hin _]; exact Hin].
      intros ids E Hne. inversion E; subst. congruence.
    + rewrite filter_In, id_in_iff. split.
      * intros [Hin Hid]. split; [exact Hin|].
        intros ids' E _. inversion E; subst. exact Hid.
      * intros [Hin Hid]. split; [exact Hin|].
        apply Hid; [reflexivity | discriminate].
    + split; [intros Hin; split; [exact Hin|] | intros [Hin _]; exact Hin].
      intros ids E. discriminate E.
Qed.

(** The fallback plan of the planner never executes to an overall failure:
    its last step composes without a provider, so at least one of its four
    results succeeds, whatever the providers do. *)
Theorem fallback_plan_never_fails (plan_id city : string) (lat lon : Q)
    (budget : option Q) (preferences : option string) (w : World) :
  let out :=
    fst (execute (_create_fallback_plan plan_id city lat lon budget preferences)
           None w) in
  List.length (ExecutorOutput.results out) = 4%nat /\
  ExecutorOutput.overall_status out <> overall_failed /\
  (exists r,
     In r (ExecutorOutput.results out) /\
     ExecutorStepResult.action r = "compose_final" /\
     ExecutorStepResult.status r = success).
Proof.
  intros out. unfold out. rewrite execute_unfold. cbn [fst ExecutorOutput.results
    ExecutorOutput.overall_status].
  unfold steps_to_execute. cbn [opt_truthy].
  unfold _create_fallback_plan. cbn [PlannerOutput.steps].
  set (w1 := snd (time_time w)).
  rewrite !run_steps_cons.
  set (r1 := fst (_execute_step _ w1)).
  set (w2 := snd (_execute_step _ w1)).
  set (r2 := fst (_execute_step _ w2)).
  set (w3 := snd (_execute_step _ w2)).
  set (r3 := fst (_execute_step _ w3)).
  set (w4 := snd (_execute_step _ w3)).
  set (r4 := fst (_execute_step _ w4)).
  assert (H4 : ExecutorStepResult.status r4 = success /\
               ExecutorStepResult.action r4 = "compose_final").
  { unfold r4. split; reflexivity. }
  destruct H4 as [Hs Ha].
  cbn [run_steps fst].
  split; [reflexivity|].
  assert (Hin : In r4 [r1; r2; r3; r4]) by (simpl; tauto).
  split.
  - destruct (determine_overall_status_cases [r1; r2; r3; r4])
      as [[E _] | [[E _] | [E [Hz _]]]]; rewrite E; try discriminate.
    exfalso. apply (proj1 (success_count_none _) Hz r4 Hin Hs).
  - exists r4. repeat split; assumption.
Qed.
End RunFacts.

(** ** From the executor to the verifier *)

Section ExtractionFacts.
Context {World : Type} `{Services World} `{Validation}.

Lemma bind_ret_r {A : Type} (m : outcome A) : (x <- m ;; Ret x) = m.
Proof. destruct m; reflexivity. Qed.

(** One turn of the extraction loop, the test moved inside. *)
Lemma extract_items_cons {A : Type} (action key : string)
    (parse : pyval -> option A) (r : ExecutorStepResult.t)
    (rest : list ExecutorStepResult.t) :
  extract_items action key parse (r :: rest) =
  (items <-
     (if andb (String.eqb (ExecutorStepResult.action r) action)
              (step_status_eqb (ExecutorStepResult.status r) success)
      then py_iter (dict_get key (PList []) (ExecutorStepResult.payload r))
      else Ret []) ;;
   more <- extract_items action key parse rest ;;
   Ret (parse_all parse items ++ more)%list).
Proof.
  cbn [extract_items].
  destruct (andb _ _); [reflexivity|].
  cbn [bind parse_all app]. now rewrite bind_ret_r.
Qed.

(** What one step leaves under the three keys the verifier reads. *)
Lemma execute_step_payloads (step : PlanStep.t) (w : World) :
  let r := fst (_execute_step step w) in
  let selected (action : string) :=
    andb (String.eqb (ExecutorStepResult.action r) action)
         (step_status_eqb (ExecutorStepResult.status r) success) in
  ((if selected "search_venues"
    then py_iter (dict_get "venues" (PList []) (ExecutorStepResult.payload r))
    else Ret [])
   = Ret (map venue_model_dump (venues_found [step] w))) /\
  ((if selected "check_events"
    then py_iter (dict_get "events" (PList []) (ExecutorStepResult.payload r))
    else Ret [])
   = Ret []) /\
  (exists images,
     (if selected "get_images"
      then py_iter (dict_get "images" (PList []) (ExecutorStepResult.payload r))
      else Ret [])
     = Ret images).
Proof.
  cbn zeta. cbn [venues_found]. rewrite app_nil_r.
  unfold _execute_step, dispatch.
  destruct (String.eqb (PlanStep.action step) "get_weather") eqn:E1.
  { apply String.eqb_eq in E1. rewrite E1.
    change (String.eqb "get_weather" "search_venues") with false. cbv iota.
    unfold _get_weather. rewrite E1.
    destruct (get_forecast _ _ _ w) as [[[wr|]|e] w1]; cbn;
      (split; [reflexivity|]; split; [reflexivity|]; now exists []). }
  destruct (String.eqb (PlanStep.action step) "search_venues") eqn:E2.
  { apply String.eqb_eq in E2. unfold _search_venues. rewrite E2.
    destruct (search_venues _ _ _ _ _ _ w) as [[[|v vs]|e] w1]; cbn;
      (split; [reflexivity|]; split; [reflexivity|]; now exists []). }
  destruct (String.eqb (PlanStep.action step) "check_events") eqn:E3.
  { apply String.eqb_eq in E3. unfold _check_events. rewrite E3. cbn.
    split; [reflexivity|]. split; [reflexivity|]. now exists []. }
  destruct (String.eqb (PlanStep.action step) "get_images") eqn:E4.
  { apply String.eqb_eq in E4. unfold _get_images. rewrite E4.
    destruct (search_images _ _ w) as [[[|i il]|e] w1]; cbn;
      (split; [reflexivity|]; split; [reflexivity|]; eexists; reflexivity). }
  destruct (String.eqb (PlanStep.action step) "compose_final") eqn:E5.
  { apply String.eqb_eq in E5. unfold _compose_final. rewrite E5. cbn.
    split; [reflexivity|]. split; [reflexivity|]. now exists []. }
  cbn. rewrite E2, E3, E4. cbn.
  split; [reflexivity|]. split; [reflexivity|]. now exists [].
Qed.

Lemma venues_found_cons (step : PlanStep.t) (rest : list PlanStep.t)
    (w : World) :
  venues_found (step :: rest) w =
  (venues_found [step] w ++ venues_found rest (snd (_execute_step step w)))%list.
Proof. cbn [venues_found]. now rewrite app_nil_r. Qed.

Lemma parse_all_dump (venues : list VenueResult.t) :
  (forall v, parse_venue (venue_model_dump v) = Some v) ->
  parse_all parse_venue (map venue_model_dump venues) = venues.
Proof.
  intros Hrt. induction venues as [|v vs IH]; simpl; [reflexivity|].
  now rewrite Hrt, IH.
Qed.

Lemma run_steps_extraction (steps : list PlanStep.t) (w : World) :
  (exists venues,
     extract_items "search_venues" "venues" parse_venue (fst (run_steps steps w))
       = Ret venues /\
     ((forall v, parse_venue (venue_model_dump v) = Some v) ->
      venues = venues_found steps w)) /\
  extract_items "check_events" "events" parse_event (fst (run_steps steps w))
    = Ret [] /\
  (exists images,
     extract_items "get_images" "images" parse_image (fst (run_steps steps w))
       = Ret images).
Proof.
  revert w. induction steps as [|step rest IH]; intros w.
  - cbn. split; [exists []; split; [reflexivity | reflexivity]|].
    split; [reflexivity | now exists []].
  - rewrite run_steps_cons, !extract_items_cons, venues_found_cons.
    destruct (execute_step_payloads step w) as (Hv & He & [imgs Hi]).
    cbn zeta in Hv, He, Hi. rewrite Hv, He, Hi.
    destruct (IH (snd (_execute_step step w)))
      as ([venues [Hvs Hfound]] & Hes & [images His]).
    rewrite Hvs, Hes, His. cbn [bind parse_all app].
    split; [|split].
    + eexists. split; [reflexivity|].
      intros Hrt. now rewrite (parse_all_dump _ Hrt), (Hfound Hrt).
    + reflexivity.
    + eexists. reflexivity.
Qed.

(** On a report produced by [execute] the extractions of the verifier never
    raise, whatever the providers answered and whatever validation accepts;
    the extracted events are always empty, since the events step is a
    placeholder. *)
Theorem executor_output_extracts (plan : PlannerOutput.t)
    (retry_steps : option (list string)) (w : World) :
  let out := fst (execute plan retry_steps w) in
  (exists venues, _extract_venues out = Ret venues) /\
  _extract_events out = Ret [] /\
  (exists images, _extract_images out = Ret images).
Proof.
  intros out. unfold out, _extract_venues, _extract_events, _extract_images.
  rewrite execute_unfold. cbn [fst ExecutorOutput.results].
  destruct (run_steps_extraction (steps_to_execute plan retry_steps)
              (snd (time_time w))) as ([venues [Hv _]] & He & Hi).
  split; [now exists venues|]. split; [exact He | exact Hi].
Qed.

(** When validation reads back every dumped venue, the venues the verifier
    extracts from a report of [execute] are exactly the venues the provider
    returned to the venue-search steps of that run, in the order of the
    calls. *)
Theorem extracted_venues_are_found (plan : PlannerOutput.t)
    (retry_steps : option (list string)) (w : World) :
  (forall v, parse_venue (venue_model_dump v) = Some v) ->
  _extract_venues (fst (execute plan retry_steps w)) =
  Ret (venues_found (steps_to_execute plan retry_steps) (snd (time_time w))).
Proof.
  intros Hrt. unfold _extract_venues.
  rewrite execute_unfold. cbn [fst ExecutorOutput.results].
  destruct (run_steps_extraction (steps_to_execute plan retry_steps)
              (snd (time_time w))) as ([venues [Hv Hfound]] & _ & _).
  now rewrite Hv, (Hfound Hrt).
Qed.
End ExtractionFacts.

(** ** The verdict of the verifier *)

Section VerdictFacts.
Context `{Builtins} `{Validation}.

Lemma verify_inv_safety (plan : PlannerOutput.t)
    (executor_output : ExecutorOutput.t) (user_request : DatePlanRequest.t)
    (out : VerifierOutput.t) :
  verify plan executor_output user_request = Ret out ->
  exists venues,
    _extract_venues executor_output = Ret venues /\
    VerifierOutput.plan_id out = PlannerOutput.plan_id plan /\
    VerifierOutput.safety_check out
      = Some (_perform_safety_check venues user_request) /\
    VerifierOutput.approved out = negb (Nat.eqb (List.length venues) 0).
Proof.
  unfold verify.
  destruct (_extract_venues executor_output) as [venues|e]; [|discriminate].
  destruct (_extract_events executor_output) as [events|e]; [|discriminate].
  destruct (_extract_images executor_output) as [images|e]; [|discriminate].
  cbn [bind]. cbv zeta. rewrite validation_issues_critical.
  assert (Happ :
    andb (Nat.eqb (List.length
                     (if Nat.eqb (List.length venues) 0
                      then [no_venues_issue] else [])) 0)
         (Nat.ltb 0 (List.length venues))
    = negb (Nat.eqb (List.length venues) 0)).
  { destruct venues; reflexivity. }
  rewrite Happ. intros Hv. exists venues. split; [reflexivity|].
  destruct (negb (Nat.eqb (List.length venues) 0)).
  - destruct (_compose_final_plan _ _ _ _ _ _ _) as [fp|e]; [|discriminate].
    cbn [bind] in Hv. inversion Hv; subst out. cbn. repeat split.
  - inversion Hv; subst out. cbn. repeat split.
Qed.

(** Approval depends on the venues alone: a returning [verify] approves if
    and only if it extracted at least one venue, whatever the weather, the
    budget and the accessibility needs; [public_venue] of the safety check
    is the same bit. *)
Theorem approved_iff_some_venue (plan : PlannerOutput.t)
    (executor_output : ExecutorOutput.t) (user_request : DatePlanRequest.t)
    (out : VerifierOutput.t) :
  verify plan executor_output user_request = Ret out ->
  exists venues safety_check,
    _extract_venues executor_output = Ret venues /\
    VerifierOutput.safety_check out = Some safety_check /\
    (VerifierOutput.approved out = true <-> venues <> []) /\
    SafetyCheck.public_venue safety_check = VerifierOutput.approved out /\
    VerifierOutput.plan_id out = PlannerOutput.plan_id plan.
Proof.
  intros Hv. apply verify_inv_safety in Hv.
  destruct Hv as (venues & Hven & Hid & Hsc & Happ).
  exists venues, (_perform_safety_check venues user_request).
  split; [exact Hven|]. split; [exact Hsc|]. rewrite Happ.
  destruct venues as [|v vs]; cbn.
  - split; [split; [discriminate | congruence]|].
    split; [reflexivity | exact Hid].
  - split; [split; [discriminate | reflexivity]|].
    split; [reflexivity | exact Hid].
Qed.

Lemma retry_only_critical (issues : list ValidationIssue.t)
    (executor_output : ExecutorOutput.t) :
  _generate_retry_recommendations issues executor_output =
  _generate_retry_recommendations (filter is_critical issues) executor_output.
Proof.
  induction issues as [|issue rest IH]; [reflexivity|].
  cbn [_generate_retry_recommendations filter]. unfold is_critical at 1.
  destruct (severity_eqb (ValidationIssue.severity issue) critical) eqn:E.
  - cbn [_generate_retry_recommendations]. rewrite E, IH. reflexivity.
  - exact IH.
Qed.

(** A rejection always has the same shape: the venue list is empty, the
    only critical issue is "No venues found matching criteria", no final
    plan is attached, and the retry recommendations are exactly the two
    fixed strings, once. *)
Theorem rejection_shape (plan : PlannerOutput.t)
    (executor_output : ExecutorOutput.t) (user_request : DatePlanRequest.t)
    (out : VerifierOutput.t) :
  verify plan executor_output user_request = Ret out ->
  VerifierOutput.approved out = false ->
  _extract_venues executor_output = Ret [] /\
  filter is_critical (VerifierOutput.issues out) = [no_venues_issue] /\
  ValidationIssue.message no_venues_issue = "No venues found matching criteria" /\
  VerifierOutput.final_output out = None /\
  VerifierOutput.retry_recommendations out =
    [ "Retry venue search with broader criteria";
      "Increase search radius to 5000m" ].
Proof.
  intros Hv Hrej. pose proof Hv as Hs. apply verify_inv_safety in Hs.
  destruct Hs as (venues & Hven & _ & _ & Happ).
  rewrite Hrej in Happ.
  assert (venues = []) as ->.
  { destruct venues; [reflexivity | discriminate]. }
  apply verify_inv in Hv.
  destruct Hv as (venues' & events & images & Hven' & _ & _ & Hrest).
  rewrite Hven in Hven'. inversion Hven'; subst venues'.
  cbv zeta in Hrest. destruct Hrest as (Hiss & _ & _ & _ & Hfalse).
  destruct (Hfalse Hrej) as [Hnone Hretry].
  split; [exact Hven|]. rewrite Hiss, Hretry, retry_only_critical.
  rewrite validation_issues_critical. cbn.
  repeat split. exact Hnone.
Qed.

Lemma fold_deductions_le (issues : list ValidationIssue.t) (score : Q) :
  (fold_left (fun score issue => score - issue_deduction issue) issues score
   <= score)%Q.
Proof.
  revert score. induction issues as [|issue rest IH]; intros score; simpl.
  - lra.
  - specialize (IH (score - issue_deduction issue)%Q).
    assert (0 <= issue_deduction issue)%Q.
    { unfold issue_deduction. destruct (ValidationIssue.severity issue); lra. }
    lra.
Qed.

Lemma clamp01_ge (c x : Q) : (c <= 1 -> c <= x -> 0 <= c -> c <= clamp01 x)%Q.
Proof.
  intros Hc1 Hx Hc0. unfold clamp01.
  destruct (Qle_bool x 0) eqn:E1; [apply Qle_bool_iff in E1; lra|].
  destruct (Qle_bool 1 x) eqn:E2; [exact Hc1 | exact Hx].
Qed.

Lemma clamp01_le (c x : Q) : (0 <= c -> x <= c -> clamp01 x <= c)%Q.
Proof.
  intros Hc0 Hx. unfold clamp01.
  destruct (Qle_bool x 0) eqn:E1; [exact Hc0|].
  destruct (Qle_bool 1 x) eqn:E2; [apply Qle_bool_iff in E2; lra | exact Hx].
Qed.

(** With at least one venue the deductions never exceed 0.75. *)
Lemma confidence_with_venues (v : VenueResult.t) (venues : list VenueResult.t)
    (weather : option WeatherResult.t) (user_request : DatePlanRequest.t) :
  (0.25 <= confidence_before_clamp (v :: venues) weather
             (validation_issues (v :: venues) weather user_request))%Q.
Proof.
  unfold confidence_before_clamp, validation_issues, _validate_venues,
    _validate_weather, _validate_budget.
  cbv zeta. rewrite !fold_left_app.
  change (Nat.eqb (List.length (v :: venues)) 0) with false. cbv iota.
  destruct weather as [wr|].
  - rewrite !fold_left_app. split_tests; cbn; lra.
  - split_tests; cbn; lra.
Qed.

(** The confidence score separates the two verdicts: an approved plan scores
    at least 0.25, a rejected one at most 0.2. *)
Theorem confidence_separates_verdicts (plan : PlannerOutput.t)
    (executor_output : ExecutorOutput.t) (user_request : DatePlanRequest.t)
    (out : VerifierOutput.t) :
  verify plan executor_output user_request = Ret out ->
  (VerifierOutput.approved out = true ->
   (0.25 <= VerifierOutput.confidence_score out)%Q) /\
  (VerifierOutput.approved out = false ->
   (VerifierOutput.confidence_score out <= 0.2)%Q).
Proof.
  intros Hv. pose proof Hv as Hs. apply verify_inv_safety in Hs.
  destruct Hs as (venues & Hven & _ & _ & Happ).
  apply verify_inv in Hv.
  destruct Hv as (venues' & events & images & Hven' & _ & _ & Hrest).
  rewrite Hven in Hven'. inversion Hven'; subst venues'.
  cbv zeta in Hrest. destruct Hrest as (_ & _ & Hconf & _).
  rewrite Hconf, Happ. unfold _calculate_confidence.
  split; intros Hb.
  - destruct venues as [|v vs]; [discriminate|].
    rewrite clamp_py. apply clamp01_ge; try lra.
    apply confidence_with_venues.
  - destruct venues as [|v vs]; [|discriminate].
    rewrite clamp_py. apply clamp01_le; try lra.
    destruct (validation_issues_no_venues (_extract_weather executor_output)
                user_request) as [rest Hhead].
    rewrite Hhead. unfold confidence_before_clamp. cbv zeta.
    cbn [List.length Nat.eqb fold_left].
    eapply Qle_trans; [apply fold_deductions_le|].
    destruct (_extract_weather executor_output); cbn; lra.
Qed.

(** The safety score takes three values: 6 without venues, 7 when some
    venue reports that it is closed now, 8 otherwise; the two deductions
    never add up and the floor at 0 is never reached.  The hours are
    invalid exactly when some venue reports [open_now = False]. *)
Theorem safety_score_values (venues : list VenueResult.t)
    (user_request : DatePlanRequest.t) :
  let check := _perform_safety_check venues user_request in
  (venues = [] ->
   SafetyCheck.safety_score check = 6 /\
   SafetyCheck.public_venue check = false /\
   SafetyCheck.operating_hours_valid check = true) /\
  (venues <> [] ->
   SafetyCheck.public_venue check = true /\
   SafetyCheck.safety_score check
     = if SafetyCheck.operating_hours_valid check then 8 else 7) /\
  (SafetyCheck.operating_hours_valid check = false <->
   exists v, In v venues /\ VenueResult.open_now v = Some false) /\
  6 <= SafetyCheck.safety_score check <= 8.
Proof.
  cbv zeta. unfold _perform_safety_check. cbn.
  assert (Hclosed :
    negb (existsb closed_now venues) = false <->
    exists v, In v venues /\ VenueResult.open_now v = Some false).
  { rewrite negb_false_iff, existsb_exists. unfold closed_now.
    split; intros [v [Hin Hc]]; exists v; (split; [exact Hin|]).
    - destruct (VenueResult.open_now v) as [[|]|]; congruence.
    - now rewrite Hc. }
  destruct venues as [|v vs].
  - cbn. repeat split; try congruence; try lia; try discriminate.
    intros [v [[] _]].
  - cbn [List.length Nat.eqb Nat.ltb Nat.leb].
    split; [discriminate|]. split; [|split; [exact Hclosed|]].
    + intros _. split; [reflexivity|].
      destruct (negb (existsb closed_now (v :: vs))); reflexivity.
    + destruct (negb (existsb closed_now (v :: vs))); cbn; lia.
Qed.
End VerdictFacts.

(** ** The final plan and the budget *)

Section FinalPlanFacts.
Context `{Builtins} `{Validation}.

Lemma compose_final_plan_fields (plan : PlannerOutput.t)
    (user_request : DatePlanRequest.t) (venues : list VenueResult.t)
    (weather : option WeatherResult.t) (events : list EventResult.t)
    (images : list ImageResult.t) (safety_check : SafetyCheck.t)
    (final_plan : FinalDatePlan.t) :
  _compose_final_plan plan user_request venues weather events images
    safety_check = Ret final_plan ->
  FinalDatePlan.venues final_plan = firstn 5 venues /\
  FinalDatePlan.timeline final_plan = _generate_timeline
                                        (DatePlanRequest.date_time user_request)
                                        venues /\
  FinalDatePlan.city final_plan = DatePlanRequest.city user_request /\
  FinalDatePlan.date_time final_plan = DatePlanRequest.date_time user_request /\
  FinalDatePlan.weather_forecast final_plan = weather /\
  FinalDatePlan.nearby_events final_plan = events /\
  FinalDatePlan.venue_images final_plan = images /\
  FinalDatePlan.transportation_suggestions final_plan = transportation /\
  FinalDatePlan.total_budget_estimate final_plan =
    match DatePlanRequest.budget_per_person user_request with
    | Some b =>
        if float_truthy b then "₹" ++ format_thousands (b * 2) else "Flexible"
    | None => "Flexible"
    end.
Proof.
  unfold _compose_final_plan. cbv zeta.
  destruct (generate_safety_checklist _ _) as [checklist|e]; [|discriminate].
  cbn [bind]. intros E. inversion E; subst final_plan. cbn. repeat split.
Qed.

(** The final plan of an approved run lists the first five extracted venues
    in the order of extraction (between one and five of them), carries the
    city and the date_time of the request unchanged, and has a timeline of
    exactly five entries of which the first four take place at the first
    venue. *)
Theorem approved_plan_shape (plan : PlannerOutput.t)
    (executor_output : ExecutorOutput.t) (user_request : DatePlanRequest.t)
    (out : VerifierOutput.t) :
  verify plan executor_output user_request = Ret out ->
  VerifierOutput.approved out = true ->
  exists final_plan top rest,
    VerifierOutput.final_output out = Some final_plan /\
    _extract_venues executor_output = Ret (top :: rest) /\
    FinalDatePlan.venues final_plan = firstn 5 (top :: rest) /\
    (1 <= List.length (FinalDatePlan.venues final_plan) <= 5)%nat /\
    FinalDatePlan.city final_plan = DatePlanRequest.city user_request /\
    FinalDatePlan.date_time final_plan
      = DatePlanRequest.date_time user_request /\
    List.length (FinalDatePlan.timeline final_plan) = 5%nat /\
    map DatePlanTimeline.location (firstn 4 (FinalDatePlan.timeline final_plan))
      = repeat (Some (VenueResult.name top)) 4.
Proof.
  intros Hv Happ. pose proof Hv as Hs. apply verify_inv_safety in Hs.
  destruct Hs as (venues & Hven & _ & _ & Happ').
  rewrite Happ in Happ'.
  destruct venues as [|top rest]; [discriminate|].
  apply verify_inv in Hv.
  destruct Hv as (venues' & events & images & Hven' & _ & _ & Hrest).
  rewrite Hven in Hven'. inversion Hven'; subst venues'.
  cbv zeta in Hrest. destruct Hrest as (_ & _ & _ & Htrue & _).
  destruct (Htrue Happ) as [_ [fp [Hfp Hout]]].
  apply compose_final_plan_fields in Hfp.
  destruct Hfp as (Hvs & Htl & Hcity & Hdt & _).
  exists fp, top, rest.
  split; [exact Hout|]. split; [exact Hven|]. split; [exact Hvs|].
  rewrite Hvs, Htl. split.
  - rewrite length_firstn. cbn [List.length]. lia.
  - split; [exact Hcity|]. split; [exact Hdt|]. split; reflexivity.
Qed.

Lemma over_budget_iff (budget : Q) (venue : VenueResult.t) :
  over_budget budget venue = true <->
  exists level,
    VenueResult.price_level venue = Some level /\ 0 < level /\
    (budget < inject_Z (level * 750))%Q.
Proof.
  unfold over_budget.
  destruct (VenueResult.price_level venue) as [level|].
  - destruct (andb (int_truthy level) (Z.ltb 0 level)) eqn:E.
    + apply andb_true_iff in E. destruct E as [_ E]. apply Z.ltb_lt in E.
      split.
      * intros Hq. exists level. split; [reflexivity|]. split; [exact E|].
        now apply Qltb_true.
      * intros (l & Hl & _ & Hlt). inversion Hl; subst l.
        unfold Qgtb, Qltb. apply negb_true_iff.
        destruct (Qle_bool (inject_Z (level * 750)) budget) eqn:Eq;
          [|reflexivity].
        apply Qle_bool_iff in Eq. lra.
    + split; [discriminate|].
      intros (l & Hl & Hpos & _). inversion Hl; subst l.
      apply andb_false_iff in E. destruct E as [E | E].
      * unfold int_truthy in E. apply negb_false_iff, Z.eqb_eq in E. lia.
      * apply Z.ltb_ge in E. lia.
  - split; [discriminate|]. intros (l & Hl & _). discriminate.
Qed.

Lemma filter_length_all {A : Type} (f : A -> bool) (l : list A) :
  List.length (filter f l) = List.length l <-> (forall x, In x l -> f x = true).
Proof.
  induction l as [|a l IH]; simpl.
  - split; [intros _ x [] | reflexivity].
  - destruct (f a) eqn:E; simpl.
    + split.
      * intros Hlen x [<- | Hin]; [exact E|]. apply IH; [lia | exact Hin].
      * intros Hall. f_equal. apply IH. intros x Hin. apply Hall. now right.
    + split.
      * intros Hlen. pose proof (filter_length_le f l). lia.
      * intros Hall. specialize (Hall a (or_introl eq_refl)). congruence.
Qed.

Lemma filter_length_pos {A : Type} (f : A -> bool) (l : list A) :
  (0 < List.length (filter f l))%nat <-> (exists x, In x l /\ f x = true).
Proof.
  split.
  - intros Hpos. destruct (filter f l) as [|x l'] eqn:E; [simpl in Hpos; lia|].
    assert (Hin : In x (filter f l)) by (rewrite E; now left).
    apply filter_In in Hin. now exists x.
  - intros [x Hx]. apply filter_In in Hx.
    destruct (filter f l); [destruct Hx | simpl; lia].
Qed.

(** The budget check emits at most one issue.  It emits none when no budget
    is given or the budget is zero.  Otherwise a venue counts as over budget
    when it has a positive price level whose 750-fold exceeds the budget: if
    every venue does (also when there is no venue at all) the warning "All
    suggested venues may exceed budget" is emitted; if some do and some do
    not, an info issue naming their number; if none does and there is a
    venue, nothing. *)
Theorem budget_issue_cases (venues : list VenueResult.t) (budget : option Q) :
  let issues := _validate_budget venues budget in
  let over (b : Q) (v : VenueResult.t) :=
    exists level,
      VenueResult.price_level v = Some level /\ 0 < level /\
      (b < inject_Z (level * 750))%Q in
  (List.length issues <= 1)%nat /\
  (budget = None -> issues = []) /\
  (forall b, budget = Some b -> (b == 0)%Q -> issues = []) /\
  (forall b,
     budget = Some b -> ~ (b == 0)%Q ->
     ((forall v, In v venues -> over b v) -> issues = [budget_warning_issue]) /\
     ((exists v, In v venues /\ over b v) ->
      (exists v, In v venues /\ ~ over b v) ->
      issues =
        [ mk_issue info "budget"
            (str_nat (List.length (filter (over_budget b) venues))
               ++ " venues may be above budget")
            "Review menu prices before booking" ]) /\
     (venues <> [] -> (forall v, In v venues -> ~ over b v) -> issues = [])).
Proof.
  cbv zeta. unfold _validate_budget.
  split; [split_tests; cbn; lia|].
  split; [intros ->; reflexivity|].
  split.
  { intros b -> Hz. unfold float_truthy.
    apply Qeq_bool_iff in Hz. now rewrite Hz. }
  intros b -> Hnz.
  assert (Ht : float_truthy b = true).
  { unfold float_truthy. apply negb_true_iff.
    destruct (Qeq_bool b 0) eqn:E; [|reflexivity].
    apply Qeq_bool_iff in E. contradiction. }
  rewrite Ht. cbn [negb].
  pose proof (filter_length_all (over_budget b) venues) as Hall.
  pose proof (filter_length_pos (over_budget b) venues) as Hpos.
  pose proof (filter_length_le (over_budget b) venues) as Hle.
  split; [|split].
  - intros Hover.
    assert (E : List.length (filter (over_budget b) venues) = List.length venues).
    { apply Hall. intros v Hin. apply over_budget_iff. now apply Hover. }
    rewrite E, Nat.eqb_refl. reflexivity.
  - intros [v [Hin Hv]] [v' [Hin' Hv']].
    destruct (Nat.eqb _ _) eqn:E.
    + exfalso. apply Nat.eqb_eq in E. apply Hv'.
      apply over_budget_iff. now apply Hall.
    + assert (Hp : (0 < List.length (filter (over_budget b) venues))%nat).
      { apply Hpos. exists v. split; [exact Hin|]. now apply over_budget_iff. }
      apply Nat.ltb_lt in Hp. rewrite Hp. reflexivity.
  - intros Hne Hnone.
    assert (Ez : List.length (filter (over_budget b) venues) = 0%nat).
    { destruct (filter (over_budget b) venues) as [|v l] eqn:E; [reflexivity|].
      exfalso. assert (Hin : In v (filter (over_budget b) venues))
        by (rewrite E; now left).
      apply filter_In in Hin. destruct Hin as [Hin Hv].
      apply (Hnone v Hin). now apply over_budget_iff. }
    rewrite Ez. destruct venues as [|v vs]; [congruence|]. reflexivity.
Qed.

(** The price bracket of the planner against the cost estimate of the
    verifier: a venue priced at the bracket computed for a positive budget
    is counted as over that budget exactly when the budget is below 2250;
    in particular always for budgets below 1500. *)
Theorem bracket_venue_over_budget (budget : Q) (venue : VenueResult.t) :
  (0 < budget)%Q ->
  VenueResult.price_level venue
    = Some (calculate_price_bracket (Some budget)) ->
  (over_budget budget venue = true <-> (budget < 2250)%Q).
Proof.
  intros Hpos Hlevel. rewrite over_budget_iff, Hlevel.
  unfold calculate_price_bracket. cbn [opt_truthy].
  assert (Ht : float_truthy budget = true).
  { unfold float_truthy. apply negb_true_iff.
    destruct (Qeq_bool budget 0) eqn:E; [|reflexivity].
    apply Qeq_bool_iff in E. lra. }
  rewrite Ht. cbn [negb].
  destruct (Qltb budget 500) eqn:E1;
    [apply Qltb_true in E1 | apply Qltb_false in E1;
     destruct (Qltb budget 1500) eqn:E2;
       [apply Qltb_true in E2 | apply Qltb_false in E2;
        destruct (Qltb budget 3000) eqn:E3;
          [apply Qltb_true in E3 | apply Qltb_false in E3]]].
  all: split;
    [ intros (l & Hl & _ & Hlt); inversion Hl; subst l;
      unfold inject_Z in Hlt; cbn in Hlt; lra
    | intros Hb;
      first [ lra
            | eexists; split; [reflexivity|]; split; [lia|];
              unfold inject_Z; cbn; lra ] ].
Qed.
End FinalPlanFacts.

(** The price bracket is one of 1, 2, 3, 4; it is 2 for a missing or zero
    budget, 1 for a negative one, and it does not decrease when a positive
    budget grows. *)
Theorem price_bracket_range_and_order (budget : option Q) :
  1 <= calculate_price_bracket budget <= 4 /\
  (budget = None -> calculate_price_bracket budget = 2) /\
  (forall b, budget = Some b -> (b == 0)%Q -> calculate_price_bracket budget = 2) /\
  (forall b, budget = Some b -> (b < 0)%Q -> calculate_price_bracket budget = 1) /\
  (forall a b,
     budget = Some a -> (0 < a)%Q -> (a <= b)%Q ->
     calculate_price_bracket (Some a) <= calculate_price_bracket (Some b)).
Proof.
  assert (Htruthy : forall q, (~ q == 0)%Q -> float_truthy q = true).
  { intros q Hq. unfold float_truthy. apply negb_true_iff.
    destruct (Qeq_bool q 0) eqn:E; [|reflexivity].
    apply Qeq_bool_iff in E. contradiction. }
  split; [|split; [|split; [|split]]].
  - unfold calculate_price_bracket. destruct budget as [b|]; cbn; [|lia].
    split_tests; lia.
  - intros ->. reflexivity.
  - intros b -> Hz. unfold calculate_price_bracket. cbn.
    unfold float_truthy. apply Qeq_bool_iff in Hz. now rewrite Hz.
  - intros b -> Hneg. unfold calculate_price_bracket. cbn.
    rewrite Htruthy by lra. cbn.
    destruct (Qltb b 500) eqn:E; [reflexivity|]. apply Qltb_false in E. lra.
  - intros a b _ Ha Hab. unfold calculate_price_bracket. cbn.
    rewrite !Htruthy by lra. cbn.
    destruct (Qltb a 500) eqn:A1; destruct (Qltb a 1500) eqn:A2;
      destruct (Qltb a 3000) eqn:A3; destruct (Qltb b 500) eqn:B1;
      destruct (Qltb b 1500) eqn:B2; destruct (Qltb b 3000) eqn:B3;
      try lia;
      repeat match goal with
             | E : Qltb _ _ = true |- _ => apply Qltb_true in E
             | E : Qltb _ _ = false |- _ => apply Qltb_false in E
             end; lra.
Qed.

(** ** Environment, opening hours and the demo venues *)

(** [get_env_variable]: a variable that is set is returned as it is, even
    when it is empty (the default is used only for an unset variable); with
    [required] the call raises exactly when the value it would return is
    missing or empty, so a required value that is returned is a non-empty
    string. *)
Theorem get_env_variable_cases (env : string -> option string) (key : string)
    (default : option string) (required : bool) :
  let result := get_env_variable env key default required in
  (forall s, env key = Some s -> (required = false \/ s <> "") ->
             result = Ret (Some s)) /\
  (env key = None -> required = false -> result = Ret default) /\
  ((exists msg, result = Raise msg) <->
   required = true /\
   (env key = Some "" \/
    (env key = None /\ (default = None \/ default = Some "")))) /\
  (required = true -> forall v, result = Ret v -> exists s, v = Some s /\ s <> "").
Proof.
  cbv zeta. unfold get_env_variable, getenv.
  destruct (env key) as [[|c s]|]; destruct required; cbn.
  all: try (destruct default as [[|c' s']|]; cbn).
  all: repeat split; intros;
    repeat match goal with
           | Hx : exists _, _ |- _ => destruct Hx
           | Hx : _ /\ _ |- _ => destruct Hx
           | Hx : _ \/ _ |- _ => destruct Hx
           | Hx : Some _ = Some _ |- _ => inversion Hx; subst; clear Hx
           | Hx : Ret _ = Ret _ |- _ => inversion Hx; subst; clear Hx
           end;
    try congruence; try discriminate; try reflexivity;
    try (eexists; reflexivity);
    try (eexists; split; [reflexivity | discriminate]);
    try (split; [reflexivity|]; tauto); try tauto.
Qed.

(** The places service always starts (its key is not required), and it runs
    in demo mode exactly when GOOGLE_PLACES_API_KEY is unset, empty, or one
    of the two placeholders "demo_mode" and "demo_mode_placeholder". *)
Theorem places_demo_mode_iff (env : string -> option string) :
  exists demo,
    places_demo_mode env = Ret demo /\
    (demo = true <->
     env "GOOGLE_PLACES_API_KEY" = None \/
     env "GOOGLE_PLACES_API_KEY" = Some "" \/
     env "GOOGLE_PLACES_API_KEY" = Some "demo_mode" \/
     env "GOOGLE_PLACES_API_KEY" = Some "demo_mode_placeholder").
Proof.
  unfold places_demo_mode, places_api_key, get_env_variable, getenv.
  destruct (env "GOOGLE_PLACES_API_KEY") as [key|]; cbn.
  - eexists. split; [reflexivity|].
    rewrite !orb_true_iff, !String.eqb_eq, negb_true_iff.
    destruct key as [|c key]; cbn; split; intros Hc.
    + tauto.
    + tauto.
    + destruct Hc as [-> | [-> | Hc]]; [tauto | tauto | discriminate].
    + destruct Hc as [Hc | [Hc | [Hc | Hc]]]; try discriminate;
        inversion Hc; tauto.
  - eexists. split; [reflexivity|]. split; [tauto | reflexivity].
Qed.

Lemma lower_ascii_idem (c : ascii) : lower_ascii (lower_ascii c) = lower_ascii c.
Proof. destruct c as [[] [] [] [] [] [] [] []]; reflexivity. Qed.

Lemma lower_idem (s : string) : lower (lower s) = lower s.
Proof.
  induction s as [|c s IH]; simpl; [reflexivity|].
  now rewrite lower_ascii_idem, IH.
Qed.

Lemma scan_opening_hours_false (target_day : string) (lines : list string) :
  scan_opening_hours target_day lines = false <->
  exists line,
    In line lines /\
    contains (lower target_day) (lower line) = true /\
    contains "closed" (lower line) = true.
Proof.
  induction lines as [|hours rest IH]; simpl.
  - split; [discriminate | intros [line [[] _]]].
  - destruct (contains (lower target_day) (lower hours)) eqn:Ed;
      [destruct (contains "closed" (lower hours)) eqn:Ec|].
    + split; [|reflexivity]. intros _. exists hours. tauto.
    + rewrite IH. split.
      * intros [line [Hin Hl]]. exists line. tauto.
      * intros [line [[<- | Hin] [Hd Hcl]]]; [congruence|]. now exists line.
    + rewrite IH. split.
      * intros [line [Hin Hl]]. exists line. tauto.
      * intros [line [[<- | Hin] [Hd Hcl]]]; [congruence|]. now exists line.
Qed.

(** [is_venue_open] answers false exactly when some opening-hours line
    contains both the target day and the word "closed", compared without
    regard to ASCII case; so a venue with no hours, or with none that
    mentions "closed", counts as open.  The target time plays no part, and
    neither does the case of the target day. *)
Theorem is_venue_open_false_iff (opening_hours : option (list string))
    (target_day target_time : string) :
  (is_venue_open opening_hours target_day target_time = false <->
   exists lines line,
     opening_hours = Some lines /\ In line lines /\
     contains (lower target_day) (lower line) = true /\
     contains "closed" (lower line) = true) /\
  (forall other_time,
     is_venue_open opening_hours (lower target_day) other_time
     = is_venue_open opening_hours target_day target_time).
Proof.
  assert (Hlow : forall lines,
            scan_opening_hours (lower target_day) lines
            = scan_opening_hours target_day lines).
  { induction lines as [|hours rest IH]; simpl; [reflexivity|].
    now rewrite lower_idem, IH. }
  unfold is_venue_open. destruct opening_hours as [[|hours rest]|]; cbn - [scan_opening_hours].
  - split; [|reflexivity]. split; [discriminate|].
    intros (lines & line & E & Hin & _). inversion E; subst. destruct Hin.
  - split; [|intros _; apply Hlow].
    rewrite scan_opening_hours_false. split.
    + intros [line Hl]. exists (hours :: rest), line. tauto.
    + intros (lines & line & E & Hl). inversion E; subst. now exists line.
  - split; [|reflexivity]. split; [discriminate|].
    intros (lines & line & E & _). discriminate.
Qed.

Section DemoVenues.
Context `{Builtins}.

Lemma firstn_incl {A : Type} (n : nat) (l : list A) (x : A) :
  In x (firstn n l) -> In x l.
Proof.
  revert l. induction n as [|n IH]; intros [|a l]; simpl; try tauto.
  intros [-> | Hin]; [now left | right; now apply IH].
Qed.

(** The demo venues: at most three, cut by [max_results] as a slice cuts (a
    negative [max_results] drops venues from the end instead of returning
    none); every venue returned is rated, open now, and priced at level 2
    or 3, and it is labelled with the demo city of the coordinates. *)
Theorem demo_venues_shape (query : string) (latitude longitude : Q)
    (max_results : Z) :
  let venues := _get_demo_venues query latitude longitude max_results in
  (0 <= max_results ->
   List.length venues = Z.to_nat (Z.min 3 max_results)) /\
  (max_results < 0 ->
   List.length venues = Z.to_nat (Z.max 0 (3 + max_results))) /\
  (forall v,
     In v venues ->
     is_rated v = true /\
     VenueResult.open_now v = Some true /\
     (VenueResult.price_level v = Some 2 \/ VenueResult.price_level v = Some 3) /\
     exists street,
       VenueResult.address v = street ++ demo_city latitude longitude).
Proof.
  cbv zeta. unfold _get_demo_venues, slice_to. cbv zeta.
  split; [|split].
  - intros Hn. destruct (Z.leb 0 max_results) eqn:E;
      [|apply Z.leb_gt in E; lia].
    rewrite length_firstn. cbn [List.length]. lia.
  - intros Hn. destruct (Z.leb 0 max_results) eqn:E;
      [apply Z.leb_le in E; lia|].
    rewrite length_firstn. cbn [List.length]. lia.
  - intros v Hin.
    assert (Hall : In v (slice_to 3 (_get_demo_venues query latitude longitude 3))).
    { unfold _get_demo_venues, slice_to. cbn [Z.leb Z.compare Z.to_nat
        Pos.to_nat Pos.iter_op Init.Nat.add firstn].
      destruct (Z.leb 0 max_results); exact (firstn_incl _ _ _ Hin). }
    unfold _get_demo_venues, slice_to in Hall. cbn in Hall.
    destruct Hall as [<- | [<- | [<- | []]]]; cbn;
      (split; [reflexivity|]; split; [reflexivity|]; split; [tauto|]).
    + now exists "123 Main Street, ".
    + now exists "456 Park Avenue, ".
    + now exists "789 Garden Road, ".
Qed.
End DemoVenues.

(** The demo venues carry the name of the requested city only for Mumbai,
    Bangalore (also spelled Bengaluru) and Pune; for the other eight cities
    of the coordinate table, and for every unknown city, the label is
    "City". *)
Theorem demo_city_of_request (city : string) :
  let coords := extract_city_coordinates city in
  let key := strip (lower city) in
  demo_city (CityCoords.lat coords) (CityCoords.lon coords) =
  if String.eqb key "mumbai" then "Mumbai"
  else if orb (String.eqb key "bangalore") (String.eqb key "bengaluru")
       then "Bangalore"
  else if String.eqb key "pune" then "Pune"
  else "City".
Proof.
  cbv zeta. unfold extract_city_coordinates.
  generalize (strip (lower city)). intros key.
  unfold city_coords. cbn [assoc_get].
  repeat match goal with
         | |- context [String.eqb key ?s] =>
             destruct (String.eqb key s) eqn:?; try reflexivity
         end.
  all: repeat match goal with
              | E : String.eqb _ _ = true |- _ => apply String.eqb_eq in E
              end.
  all: subst; discriminate.
Qed.

(** The weather suggestion is never empty, and it is the default sentence
    exactly when no advice applies: the temperature lies between 20 and 32,
    the rain probability does not exceed 50, and the condition mentions
    none of rain, clear, sunny and cloud. *)
Theorem suggestion_default_iff (temperature : Q) (condition : string)
    (rain_prob : option Q) :
  _generate_suggestion temperature condition rain_prob <> "" /\
  (_generate_suggestion temperature condition rain_prob
     = "Weather looks good for your date" <->
   (20 <= temperature <= 32)%Q /\
   (forall p, rain_prob = Some p -> (p <= 50)%Q) /\
   contains "rain" (lower condition) = false /\
   contains "clear" (lower condition) = false /\
   contains "sunny" (lower condition) = false /\
   contains "cloud" (lower condition) = false).
Proof.
  unfold _generate_suggestion. cbv zeta.
  assert (Hrain :
    opt_truthy (fun p => andb (float_truthy p) (Qgtb p 50)) rain_prob = false <->
    forall p, rain_prob = Some p -> (p <= 50)%Q).
  { destruct rain_prob as [p|]; cbn.
    - split.
      + intros E q Hq. inversion Hq; subst q.
        apply andb_false_iff in E. destruct E as [E | E].
        * unfold float_truthy in E. apply negb_false_iff, Qeq_bool_iff in E. lra.
        * now apply Qltb_false in E.
      + intros Hp. specialize (Hp p eq_refl).
        apply andb_false_iff. right. unfold Qgtb, Qltb.
        apply negb_false_iff. now apply Qle_bool_iff.
    - split; [intros _ p E; discriminate | reflexivity]. }
  destruct (opt_truthy _ rain_prob) eqn:Er.
  all: destruct (Qltb temperature 15) eqn:T1;
    [|destruct (Qltb temperature 20) eqn:T2;
      [|destruct (Qgtb temperature 32) eqn:T3]].
  all: destruct (contains "rain" (lower condition));
    destruct (contains "clear" (lower condition));
    destruct (contains "sunny" (lower condition));
    destruct (contains "cloud" (lower condition)); cbn.
  all: split; [discriminate|].
  all: split;
    [ intros E; try discriminate E
    | intros (Ht & Hp & Hr & Hc & Hs & Hcl); try discriminate ].
  all: repeat match goal with
              | E : Qltb _ _ = true |- _ => apply Qltb_true in E
              | E : Qltb _ _ = false |- _ => apply Qltb_false in E
              | E : Qgtb _ _ = true |- _ => apply Qltb_true in E
              | E : Qgtb _ _ = false |- _ => apply Qltb_false in E
              end.
  all: try reflexivity.
  all: try (exfalso; lra).
  all: try (exfalso; apply Hrain in Hp; congruence).
  all: repeat split; try lra; try reflexivity.
  all: now apply Hrain.
Qed.

(** ** The endpoint *)

Section EndpointFacts.
Context {World : Type} `{Services World} `{PlannerEnv World}.
Context `{Builtins} `{Validation}.

(** The two shapes of an output of [verify]. *)
Lemma verify_output_cases (planned : PlannerOutput.t)
    (executor_output : ExecutorOutput.t) (user_request : DatePlanRequest.t)
    (out : VerifierOutput.t) :
  verify planned executor_output user_request = Ret out ->
  (VerifierOutput.approved out = true /\
   exists final_plan, VerifierOutput.final_output out = Some final_plan) \/
  (VerifierOutput.approved out = false /\
   VerifierOutput.final_output out = None /\
   critical_messages (VerifierOutput.issues out)
     = ["No venues found matching criteria"]).
Proof.
  intros Hv. pose proof Hv as Hs. apply verify_inv_safety in Hs.
  destruct Hs as (venues & Hven & _ & _ & Happ).
  apply verify_inv in Hv.
  destruct Hv as (venues' & events & images & Hven' & _ & _ & Hrest).
  rewrite Hven in Hven'. inversion Hven'; subst venues'.
  cbv zeta in Hrest. destruct Hrest as (Hiss & _ & _ & Htrue & Hfalse).
  destruct (VerifierOutput.approved out) eqn:Hb.
  - left. split; [reflexivity|].
    destruct (Htrue eq_refl) as [_ [fp [_ Hfp]]]. now exists fp.
  - right. split; [reflexivity|].
    destruct (Hfalse eq_refl) as [Hnone _]. split; [exact Hnone|].
    unfold critical_messages. rewrite Hiss, validation_issues_critical.
    destruct venues; [reflexivity | discriminate].
Qed.



(** The retry budget is one full re-run.  When the first verification
    approves, the answer carries its final plan and the providers are not
    called again.  When it rejects, the same plan is executed once more from
    the world the first run left, without a retry list, and the second
    verification alone decides: success exactly when it approves, an
    internal error when it raises; there is no third run. *)
Theorem endpoint_retries_once (request : DatePlanRequest.t) (w : World)
    (first : VerifierOutput.t) :
  let start_time := fst (time_time w) in
  let planned := fst (plan request (snd (time_time w))) in
  let w1 := snd (plan request (snd (time_time w))) in
  let run1 := execute planned None w1 in
  let run2 := execute planned None (snd run1) in
  PlannerOutput.steps planned <> [] ->
  verify planned (fst run1) request = Ret first ->
  (VerifierOutput.approved first = true ->
   snd (create_date_plan request w) = snd (time_time (snd run1)) /\
   exists r,
     fst (create_date_plan request w) = Returned r /\
     DatePlanResponse.success r = true /\
     DatePlanResponse.plan r = VerifierOutput.final_output first) /\
  (VerifierOutput.approved first = false ->
   snd (create_date_plan request w) = snd (time_time (snd run2)) /\
   (forall second,
      verify planned (fst run2) request = Ret second ->
      exists r,
        fst (create_date_plan request w) = Returned r /\
        DatePlanResponse.success r = VerifierOutput.approved second /\
        DatePlanResponse.plan r = VerifierOutput.final_output second) /\
   (forall e,
      verify planned (fst run2) request = Raise e ->
      exists r,
        fst (create_date_plan request w) = Returned r /\
        DatePlanResponse.success r = false /\
        DatePlanResponse.errors r = [e])).
Proof.
  cbv zeta. unfold create_date_plan.
  destruct (time_time w) as [start_time w0]. cbn [fst snd].
  destruct (plan request w0) as [planned w1]. cbn [fst snd].
  intros Hsteps Hv.
  destruct (PlannerOutput.steps planned) as [|s0 steps]; [congruence|].
  cbn [List.length Nat.eqb].
  destruct (execute planned None w1) as [eo w2]. cbn [fst snd] in *.
  rewrite Hv. unfold max_retries. cbn [retry_loop].
  split; intros Happ; rewrite Happ; cbn [negb].
  - destruct (verify_output_cases _ _ _ _ Hv)
      as [[_ [fp Hfp]] | [Happ' _]]; [|congruence].
    destruct (time_time w2) as [now w4]. rewrite ?Happ, Hfp. cbn.
    split; [reflexivity|]. eexists. split; [reflexivity|]. split; reflexivity.
  - destruct (execute planned None w2) as [eo2 w3]. cbn [fst snd].
    destruct (verify planned eo2 request) as [second|e] eqn:Hv2.
    + destruct (time_time w3) as [now w4] eqn:Hnow.
      split; [|split].
      * destruct (VerifierOutput.approved second);
          destruct (VerifierOutput.final_output second); reflexivity.
      * intros second' E. inversion E; subst second'.
        destruct (verify_output_cases _ _ _ _ Hv2)
          as [[Ha [fp Hfp]] | [Ha [Hnone _]]].
        -- rewrite Ha, Hfp. eexists. split; [reflexivity|]. split; reflexivity.
        -- rewrite Ha, Hnone. eexists. split; [reflexivity|]. split; reflexivity.
      * intros e E. discriminate E.
    + unfold internal_error. destruct (time_time w3) as [now w4]. cbn.
      split; [reflexivity|]. split.
      * intros second E. discriminate E.
      * intros e' E. inversion E; subst e'.
        eexists. split; [reflexivity|]. split; reflexivity.
Qed.
End EndpointFacts.

(** ** From the request to a successful answer *)

Lemma read_all_strings (l : list string) : read_all read_str (map PStr l) = Some l.
Proof.
  induction l as [|s l IH]; simpl; [reflexivity|]. now rewrite IH.
Qed.

(** The sample validation reads back what [model_dump] wrote. *)
Lemma sample_parse_venue_dump (v : VenueResult.t) :
  sample_parse_venue (venue_model_dump v) = Some v.
Proof.
  destruct v as [name address rating price_level open_now opening_hours phone
                   website google_maps_url photos cuisine_type
                   wheelchair_accessible].
  unfold sample_parse_venue, venue_model_dump, get_str, get_optional.
  cbn [dict_lookup String.eqb Ascii.eqb Bool.eqb VenueResult.name
       VenueResult.address VenueResult.rating VenueResult.price_level
       VenueResult.open_now VenueResult.opening_hours VenueResult.phone
       VenueResult.website VenueResult.google_maps_url VenueResult.photos
       VenueResult.cuisine_type VenueResult.wheelchair_accessible obind].
  destruct rating; cbn [dump_opt read_float option_map obind];
  destruct price_level; cbn [dump_opt read_int option_map obind];
  destruct open_now; cbn [dump_opt read_bool option_map obind];
  destruct opening_hours;
    cbn [dump_opt dump_strings read_strings option_map obind];
    rewrite ?read_all_strings; cbn [option_map obind];
  destruct phone; cbn [dump_opt read_str option_map obind];
  destruct website; cbn [dump_opt read_str option_map obind];
  destruct google_maps_url; cbn [dump_opt read_str option_map obind];
  unfold dump_strings, read_strings; rewrite ?read_all_strings; cbn [obind];
  destruct cuisine_type; cbn [dump_opt read_str option_map obind];
  destruct wheelchair_accessible; cbn [dump_opt read_bool option_map obind];
  reflexivity.
Qed.

Section SuccessPath.
Context {World : Type} `{Services World} `{PlannerEnv World}.
Context `{Builtins} `{Validation}.

Lemma venues_found_some (steps : list PlanStep.t) (w : World) :
  (exists s, In s steps /\ PlanStep.action s = "search_venues") ->
  (forall q la lo r t m w0,
     exists v vs w0', search_venues q la lo r t m w0 = (Ret (v :: vs), w0')) ->
  venues_found steps w <> [].
Proof.
  intros [s [Hin Hact]] Hprov. revert w.
  induction steps as [|step rest IH]; intros w; [destruct Hin|].
  cbn [venues_found]. destruct Hin as [-> | Hin].
  - rewrite Hact. change (String.eqb "search_venues" "search_venues") with true.
    cbv iota.
    destruct (Hprov (dict_get "query" (PStr "restaurant") (PlanStep.params s))
                (dict_get "latitude" (PInt 0) (PlanStep.params s))
                (dict_get "longitude" (PInt 0) (PlanStep.params s))
                (dict_get "radius" (PInt 3000) (PlanStep.params s))
                (dict_get "venue_type" (PStr "restaurant") (PlanStep.params s))
                (dict_get "max_results" (PInt 5) (PlanStep.params s)) w)
      as (v & vs & w' & E).
    rewrite E. discriminate.
  - intros E. apply app_eq_nil in E. destruct E as [_ E].
    exact (IH Hin _ E).
Qed.

Lemma checklist_returns (venue_name time : string) :
  (mentions_evening time = true -> contains ":" time = false) ->
  exists checklist, generate_safety_checklist venue_name time = Ret checklist.
Proof.
  intros Hcolon. unfold generate_safety_checklist, checklist_hour. cbv zeta.
  destruct (mentions_evening time); [|eexists; reflexivity].
  rewrite (Hcolon eq_refl). cbn. eexists. reflexivity.
Qed.

(** With at least one extracted venue [verify] approves as soon as the
    other extractions and the checklist return. *)
Lemma verify_approves (planned : PlannerOutput.t)
    (executor_output : ExecutorOutput.t) (user_request : DatePlanRequest.t)
    (v : VenueResult.t) (venues : list VenueResult.t)
    (events : list EventResult.t) (images : list ImageResult.t) :
  _extract_venues executor_output = Ret (v :: venues) ->
  _extract_events executor_output = Ret events ->
  _extract_images executor_output = Ret images ->
  (mentions_evening (DatePlanRequest.date_time user_request) = true ->
   contains ":" (DatePlanRequest.date_time user_request) = false) ->
  exists out final_plan,
    verify planned executor_output user_request = Ret out /\
    VerifierOutput.approved out = true /\
    VerifierOutput.final_output out = Some final_plan /\
    FinalDatePlan.venues final_plan = firstn 5 (v :: venues).
Proof.
  intros Hv He Hi Hcolon. unfold verify. rewrite Hv, He, Hi. cbn [bind].
  cbv zeta. rewrite validation_issues_critical. cbn [List.length Nat.eqb
    Nat.ltb Nat.leb andb].
  unfold _compose_final_plan. cbv zeta.
  destruct (checklist_returns (VenueResult.name v)
              (DatePlanRequest.date_time user_request) Hcolon) as [cl Hcl].
  rewrite Hcl. cbn [bind].
  do 2 eexists. split; [reflexivity|]. cbn. repeat split.
Qed.

(** A request is answered with a success, on the first run and without a
    retry, whenever the plan has a venue-search step, the venue provider
    returns at least one venue on every call, validation reads back the
    dumped venues, and the date_time either names no evening or holds no
    colon; neither the weather nor the image provider matters. *)
Theorem endpoint_succeeds_with_venues (request : DatePlanRequest.t) (w : World) :
  let planned := fst (plan request (snd (time_time w))) in
  let w1 := snd (plan request (snd (time_time w))) in
  (exists s,
     In s (PlannerOutput.steps planned) /\
     PlanStep.action s = "search_venues") ->
  (forall q la lo r t m w0,
     exists v vs w0', search_venues q la lo r t m w0 = (Ret (v :: vs), w0')) ->
  (forall v, parse_venue (venue_model_dump v) = Some v) ->
  (mentions_evening (DatePlanRequest.date_time request) = true ->
   contains ":" (DatePlanRequest.date_time request) = false) ->
  exists r final_plan,
    fst (create_date_plan request w) = Returned r /\
    DatePlanResponse.success r = true /\
    DatePlanResponse.plan r = Some final_plan /\
    FinalDatePlan.venues final_plan <> [] /\
    snd (create_date_plan request w)
      = snd (time_time (snd (execute planned None w1))).
Proof.
  cbv zeta. unfold create_date_plan.
  destruct (time_time w) as [start_time w0]. cbn [fst snd].
  destruct (plan request w0) as [planned w1]. cbn [fst snd].
  intros Hstep Hprov Hrt Hcolon.
  destruct (PlannerOutput.steps planned) as [|s0 steps] eqn:Hsteps.
  { destruct Hstep as [s [[] _]]. }
  cbn [List.length Nat.eqb].
  pose proof (execute_unfold planned None w1) as Hex.
  destruct (execute planned None w1) as [eo w2]. cbn [fst snd].
  assert (Hres : ExecutorOutput.results eo
                 = fst (run_steps (steps_to_execute planned None)
                          (snd (time_time w1)))).
  { inversion Hex. reflexivity. }
  destruct (run_steps_extraction (steps_to_execute planned None)
              (snd (time_time w1)))
    as ([venues [Hv Hfound]] & He & [images Hi]).
  rewrite <- Hres in Hv, He, Hi.
  assert (Hne : venues <> []).
  { rewrite (Hfound Hrt). apply venues_found_some; [|exact Hprov].
    unfold steps_to_execute. cbn [opt_truthy]. now rewrite Hsteps. }
  destruct venues as [|v vs]; [congruence|].
  destruct (verify_approves planned eo request v vs [] images Hv He Hi Hcolon)
    as (out & fp & Hout & Happ & Hfp & Hvenues).
  rewrite Hout. unfold max_retries. cbn [retry_loop]. rewrite Happ.
  cbn [negb]. destruct (time_time w2) as [now w4]. rewrite ?Happ, Hfp.
  cbn. do 2 eexists. split; [reflexivity|]. split; [reflexivity|].
  split; [reflexivity|]. split; [rewrite Hvenues; discriminate | reflexivity].
Qed.
End SuccessPath.

(** ** The venue checks *)

Section VenueIssueFacts.
Context `{Builtins} `{Validation}.

Lemma half_rated_iff (rated n : nat) :
  Qltb (inject_Z (Z.of_nat rated)) (inject_Z (Z.of_nat n) * 0.5) = true <->
  (2 * rated < n)%nat.
Proof.
  split.
  - intros E. apply Qltb_true in E.
    unfold Qlt, Qmult, inject_Z in E. cbn in E. lia.
  - intros Hlt. unfold Qltb. apply negb_true_iff.
    destruct (Qle_bool _ _) eqn:E; [|reflexivity].
    apply Qle_bool_iff in E. unfold Qle, Qmult, inject_Z in E. cbn in E. lia.
Qed.

(** The venue checks emit, in this order, at most one issue about the number
    of venues (critical for none, a warning for one or two), the info issue
    about ratings exactly when fewer than half of the venues carry a positive
    rating, and the accessibility warning exactly when accessibility needs
    are stated and no venue is confirmed accessible (also when there is no
    venue at all).  Three or more venues, at least half of them rated, and no
    accessibility needs give no issue. *)
Theorem venue_issue_cases (venues : list VenueResult.t)
    (user_request : DatePlanRequest.t) :
  let issues := _validate_venues venues user_request in
  let n := List.length venues in
  let rated := List.length (filter is_rated venues) in
  let needs :=
    opt_truthy str_truthy (DatePlanRequest.accessibility_needs user_request) in
  (List.length issues <= 3)%nat /\
  ((exists issue,
      In issue issues /\ ValidationIssue.severity issue = info) <->
   (2 * rated < n)%nat) /\
  ((exists issue,
      In issue issues /\ ValidationIssue.category issue = "accessibility") <->
   needs = true /\
   (forall v, In v venues -> VenueResult.wheelchair_accessible v <> Some true)) /\
  ((3 <= n)%nat -> (n <= 2 * rated)%nat -> needs = false -> issues = []).
Proof.
  cbv zeta. unfold _validate_venues. cbv zeta.
  pose proof (half_rated_iff (List.length (filter is_rated venues))
                (List.length venues)) as Hhalf.
  assert (Hacc :
    Nat.eqb (List.length (filter is_accessible venues)) 0 = true <->
    forall v, In v venues -> VenueResult.wheelchair_accessible v <> Some true).
  { rewrite Nat.eqb_eq. split.
    - intros Hz v Hin Hv.
      assert (Hf : In v (filter is_accessible venues)).
      { apply filter_In. split; [exact Hin|]. unfold is_accessible. now rewrite Hv. }
      destruct (filter is_accessible venues); [destruct Hf | discriminate].
    - intros Hnone.
      destruct (filter is_accessible venues) as [|v l] eqn:E; [reflexivity|].
      exfalso. assert (Hf : In v (filter is_accessible venues))
        by (rewrite E; now left).
      apply filter_In in Hf. destruct Hf as [Hin Hv]. apply (Hnone v Hin).
      unfold is_accessible in Hv.
      destruct (VenueResult.wheelchair_accessible v) as [[|]|];
        [reflexivity | discriminate | discriminate]. }
  set (count_issue :=
         if Nat.eqb (List.length venues) 0 then _
         else if Nat.ltb (List.length venues) 3 then _ else _).
  set (rating_issue := if Qltb _ _ then _ else _).
  set (access_issue := if opt_truthy str_truthy _ then _ else _).
  assert (HA : (List.length count_issue <= 1)%nat /\
               (forall i, In i count_issue ->
                          ValidationIssue.severity i <> info /\
                          ValidationIssue.category i = "venues") /\
               ((3 <= List.length venues)%nat -> count_issue = [])).
  { unfold count_issue.
    destruct (Nat.eqb (List.length venues) 0) eqn:E0;
      [|destruct (Nat.ltb (List.length venues) 3) eqn:E3]; cbn.
    - apply Nat.eqb_eq in E0. split; [lia|]. split; [|lia].
      intros i [<- | []]. split; [discriminate | reflexivity].
    - apply Nat.ltb_lt in E3. split; [lia|]. split; [|lia].
      intros i [<- | []]. split; [discriminate | reflexivity].
    - split; [lia|]. split; [intros i []|reflexivity]. }
  assert (HB : (exists i, rating_issue = [i] /\
                          ValidationIssue.severity i = info /\
                          ValidationIssue.category i = "venues" /\
                          (2 * List.length (filter is_rated venues)
                           < List.length venues)%nat) \/
               (rating_issue = [] /\
                ~ (2 * List.length (filter is_rated venues)
                   < List.length venues)%nat)).
  { unfold rating_issue. destruct (Qltb _ _) eqn:Eh.
    - left. eexists. do 3 (split; [reflexivity|]).
      now apply Hhalf.
    - right. split; [reflexivity|]. intros Hlt. apply Hhalf in Hlt. congruence. }
  assert (HC : (exists i, access_issue = [i] /\
                          ValidationIssue.severity i = warning /\
                          ValidationIssue.category i = "accessibility" /\
                          opt_truthy str_truthy
                            (DatePlanRequest.accessibility_needs user_request)
                          = true /\
                          (forall v, In v venues ->
                             VenueResult.wheelchair_accessible v <> Some true)) \/
               (access_issue = [] /\
                ~ (opt_truthy str_truthy
                     (DatePlanRequest.accessibility_needs user_request) = true /\
                   (forall v, In v venues ->
                      VenueResult.wheelchair_accessible v <> Some true)))).
  { unfold access_issue.
    destruct (opt_truthy str_truthy _) eqn:En;
      [destruct (Nat.eqb (List.length (filter is_accessible venues)) 0) eqn:Ea|].
    - left. eexists. repeat (split; [reflexivity|]). now apply Hacc.
    - right. split; [reflexivity|]. intros [_ Hnone].
      apply Hacc in Hnone. congruence.
    - right. split; [reflexivity|]. intros [Hn _]. discriminate. }
  clearbody count_issue rating_issue access_issue.
  destruct HA as (HA1 & HA2 & HA3).
  split; [|split; [|split]].
  - rewrite !length_app.
    destruct HB as [(i & -> & _) | [-> _]];
      destruct HC as [(j & -> & _) | [-> _]]; cbn; lia.
  - split.
    + intros [issue [Hin Hsev]].
      apply in_app_or in Hin. destruct Hin as [Hin | Hin].
      { destruct (HA2 issue Hin) as [Hni _]. contradiction. }
      apply in_app_or in Hin. destruct Hin as [Hin | Hin].
      * destruct HB as [(i & _ & _ & _ & Hlt) | [-> _]];
          [exact Hlt | destruct Hin].
      * destruct HC as [(j & -> & Hw & _) | [-> _]]; [|destruct Hin].
        destruct Hin as [<- | []]. congruence.
    + intros Hlt.
      destruct HB as [(i & -> & Hsev & _) | [_ Hn]]; [|contradiction].
      exists i. split; [|exact Hsev].
      apply in_or_app. right. apply in_or_app. left. now left.
  - split.
    + intros [issue [Hin Hcat]].
      apply in_app_or in Hin. destruct Hin as [Hin | Hin].
      { destruct (HA2 issue Hin) as [_ Hv]. rewrite Hv in Hcat. discriminate. }
      apply in_app_or in Hin. destruct Hin as [Hin | Hin].
      * exfalso.
        destruct HB as [(i & Hi & _ & Hv & _) | [Hi _]]; rewrite Hi in Hin;
          [|destruct Hin].
        destruct Hin as [<- | []]. rewrite Hv in Hcat. discriminate.
      * destruct HC as [(j & _ & _ & _ & Hn & Hnone) | [-> _]];
          [split; assumption | destruct Hin].
    + intros Hneeds. destruct HC as [(j & -> & _ & Hcat & _) | [_ Hnot]];
        [|contradiction].
      exists j. split; [|exact Hcat].
      apply in_or_app. right. apply in_or_app. right. now left.
  - intros H3 Hr Hn. rewrite (HA3 H3).
    destruct HB as [(i & _ & _ & _ & Hlt) | [-> _]]; [lia|].
    destruct HC as [(j & _ & _ & _ & Hneeds & _) | [-> _]]; [congruence|].
    reflexivity.
Qed.
End VenueIssueFacts.

(** ** The further properties on the sample runtime *)

Lemma search_venues_step_status_witness :
  PlanStep.action search_venues_step = "search_venues" /\
  ExecutorStepResult.status
    (fst (_execute_step (H := sample_services) search_venues_step 0%nat))
  = success /\
  ExecutorStepResult.source
    (fst (_execute_step (H := sample_services) search_venues_step 0%nat))
  = "google_places".
Proof.
  split; [reflexivity|].
  destruct (search_venues_step_status (H := sample_services) search_venues_step
              0%nat eq_refl) as (_ & Hsome & _).
  destruct (Hsome _ _ eq_refl) as (Hs & _ & Hsrc & _).
  split; [exact Hs | exact Hsrc].
Defined.

Lemma get_weather_step_status_witness :
  PlanStep.action get_weather_step = "get_weather" /\
  ExecutorStepResult.status
    (fst (_execute_step (H := sample_services) get_weather_step 0%nat))
  = success /\
  ExecutorStepResult.payload
    (fst (_execute_step (H := sample_services) get_weather_step 0%nat))
  = weather_model_dump sample_weather.
Proof.
  split; [reflexivity|].
  destruct (get_weather_step_status (H := sample_services) get_weather_step
              0%nat eq_refl) as (_ & Hsome & _).
  destruct (Hsome _ eq_refl) as (Hs & Hp & _).
  split; [exact Hs | exact Hp].
Defined.

Lemma placeholder_steps_succeed_witness :
  (PlanStep.action check_events_step = "check_events" \/
   PlanStep.action check_events_step = "compose_final") /\
  snd (_execute_step (H := sample_services) check_events_step 7%nat) = 7%nat /\
  ExecutorStepResult.status
    (fst (_execute_step (H := sample_services) check_events_step 7%nat))
  = success.
Proof.
  split; [left; reflexivity|].
  destruct (placeholder_steps_succeed (H := sample_services) check_events_step
              7%nat (or_introl eq_refl)) as (Hw & Hs & _).
  split; [exact Hw | exact Hs].
Defined.

Lemma extracted_venues_are_found_witness :
  (forall v, sample_parse_venue (venue_model_dump v) = Some v) /\
  @_extract_venues sample_validation
    (fst (execute (H := sample_services) sample_plan None 0%nat))
  = Ret sample_venues.
Proof.
  split; [exact sample_parse_venue_dump|].
  exact (@extracted_venues_are_found nat sample_services sample_validation
           sample_plan None 0%nat sample_parse_venue_dump).
Defined.

Lemma approved_iff_some_venue_witness :
  exists out,
    @verify sample_builtins sample_validation empty_plan sample_executor_output
      sample_user_request = Ret out /\
    exists venues safety_check,
      @_extract_venues sample_validation sample_executor_output = Ret venues /\
      VerifierOutput.safety_check out = Some safety_check /\
      (VerifierOutput.approved out = true <-> venues <> []) /\
      SafetyCheck.public_venue safety_check = VerifierOutput.approved out /\
      VerifierOutput.plan_id out = PlannerOutput.plan_id empty_plan.
Proof.
  eexists. split; [vm_compute; reflexivity|].
  apply (@approved_iff_some_venue sample_builtins sample_validation empty_plan
           sample_executor_output sample_user_request).
  vm_compute. reflexivity.
Defined.

Lemma rejection_shape_witness :
  exists out,
    @verify sample_builtins sample_validation empty_plan empty_executor_output
      sample_user_request = Ret out /\
    VerifierOutput.approved out = false /\
    VerifierOutput.retry_recommendations out =
      [ "Retry venue search with broader criteria";
        "Increase search radius to 5000m" ].
Proof.
  eexists. split; [vm_compute; reflexivity|]. split; [reflexivity|].
  exact (proj2 (proj2 (proj2 (proj2
           (@rejection_shape sample_builtins sample_validation empty_plan
              empty_executor_output sample_user_request _
              ltac:(vm_compute; reflexivity) eq_refl))))).
Defined.

Lemma confidence_separates_verdicts_witness :
  exists out,
    @verify sample_builtins sample_validation empty_plan sample_executor_output
      sample_user_request = Ret out /\
    VerifierOutput.approved out = true /\
    (0.25 <= VerifierOutput.confidence_score out)%Q.
Proof.
  eexists. split; [vm_compute; reflexivity|]. split; [reflexivity|].
  exact (proj1 (@confidence_separates_verdicts sample_builtins sample_validation
                  empty_plan sample_executor_output sample_user_request _
                  ltac:(vm_compute; reflexivity)) eq_refl).
Defined.

Lemma approved_plan_shape_witness :
  exists out,
    @verify sample_builtins sample_validation empty_plan sample_executor_output
      sample_user_request = Ret out /\
    VerifierOutput.approved out = true /\
    exists final_plan,
      VerifierOutput.final_output out = Some final_plan /\
      List.length (FinalDatePlan.timeline final_plan) = 5%nat.
Proof.
  eexists. split; [vm_compute; reflexivity|]. split; [reflexivity|].
  destruct (@approved_plan_shape sample_builtins sample_validation empty_plan
              sample_executor_output sample_user_request _
              ltac:(vm_compute; reflexivity) eq_refl)
    as (fp & top & rest & Hfp & _ & _ & _ & _ & _ & Hlen & _).
  exists fp. split; [exact Hfp | exact Hlen].
Defined.

Lemma bracket_venue_over_budget_witness :
  (0 < 1000)%Q /\
  VenueResult.price_level (hd (VenueResult.mk "" "" None None None None None
                                 None None [] None None) sample_venues)
  = Some (calculate_price_bracket (Some 1000%Q)) /\
  over_budget 1000
    (hd (VenueResult.mk "" "" None None None None None None None [] None None)
       sample_venues) = true.
Proof.
  split; [reflexivity|]. split; [reflexivity|].
  apply (bracket_venue_over_budget 1000%Q
           (hd (VenueResult.mk "" "" None None None None None None None []
                  None None) sample_venues) eq_refl eq_refl).
  reflexivity.
Defined.

Lemma endpoint_retries_once_witness :
  exists first r,
    @verify sample_builtins sample_validation
      (fst (plan (H := sample_planner_env) sample_user_request 1%nat))
      (fst (execute (H := sample_services)
              (fst (plan (H := sample_planner_env) sample_user_request 1%nat))
              None 2%nat))
      sample_user_request = Ret first /\
    VerifierOutput.approved first = true /\
    fst (@create_date_plan nat sample_services sample_planner_env
           sample_builtins sample_validation sample_user_request 0%nat)
    = Returned r /\
    DatePlanResponse.success r = true /\
    DatePlanResponse.plan r = VerifierOutput.final_output first.
Proof.
  eexists.
  assert (Hv :
    @verify sample_builtins sample_validation
      (fst (plan (H := sample_planner_env) sample_user_request 1%nat))
      (fst (execute (H := sample_services)
              (fst (plan (H := sample_planner_env) sample_user_request 1%nat))
              None 2%nat))
      sample_user_request = Ret _) by (vm_compute; reflexivity).
  destruct (@endpoint_retries_once nat sample_services sample_planner_env
              sample_builtins sample_validation sample_user_request 0%nat _
              ltac:(discriminate) Hv) as [Hfirst _].
  destruct (Hfirst eq_refl) as (_ & r & Hr & Hs & Hp).
  exists r. split; [exact Hv|]. split; [reflexivity|].
  split; [exact Hr|]. split; [exact Hs | exact Hp].
Defined.

Lemma endpoint_succeeds_with_venues_witness :
  exists r final_plan,
    fst (@create_date_plan nat sample_services sample_planner_env
           sample_builtins sample_validation sample_user_request 0%nat)
    = Returned r /\
    DatePlanResponse.success r = true /\
    DatePlanResponse.plan r = Some final_plan /\
    FinalDatePlan.venues final_plan <> [].
Proof.
  destruct (@endpoint_succeeds_with_venues nat sample_services
              sample_planner_env sample_builtins sample_validation
              sample_user_request 0%nat)
    as (r & fp & Hr & Hs & Hp & Hv & _).
  - eexists. split; [right; left; reflexivity | reflexivity].
  - intros q la lo rd t m w0. eexists. eexists. eexists. reflexivity.
  - exact sample_parse_venue_dump.
  - intros _. reflexivity.
  - exists r, fp. split; [exact Hr|]. split; [exact Hs|].
    split; [exact Hp | exact Hv].
Defined.
